(** * DNNMark: the layer abstraction of [core/include/dnn_layer.h]

    A shallow embedding of [dnnmark::Layer<T>] and
    [dnnmark::ConvolutionLayer<T>].  Member functions become functions over
    the object's fields and an explicit [World] holding everything the
    header reaches through pointers: the [DataManager] singleton, the device
    memory of the CUDA runtime, and the log of calls that leave the header.
    A fatal exit ([CUDNN_CALL], [CUDA_CALL], an invalid chunk id) and
    undefined behaviour are results in the [Err] branch. *)

From Stdlib Require Import ZArith List Lia Bool String.
From stdpp Require Import base option list gmap.
Import ListNotations.

Local Open Scope Z_scope.

(** ** C++ [int]: 32-bit two's complement

    Arithmetic is the machine's: a result outside the range wraps around.
    The statements below that need the mathematical value say that it
    [fits]. *)

Module Int.

Definition min_signed : Z := - 2 ^ 31.
Definition max_signed : Z := 2 ^ 31 - 1.

(** The value a 32-bit register holds for the mathematical result [z]. *)
Definition wrap (z : Z) : Z := (z + 2 ^ 31) mod 2 ^ 32 - 2 ^ 31.

Definition fits (z : Z) : Prop := min_signed <= z <= max_signed.

Definition add (a b : Z) : Z := wrap (a + b).
Definition sub (a b : Z) : Z := wrap (a - b).
Definition mul (a b : Z) : Z := wrap (a * b).

(** [a / b] on [int]: the quotient truncated toward zero.  A zero divisor
    and [INT_MIN / -1], whose quotient is not an [int], are undefined
    behaviour (the division instruction traps): no result. *)
Definition quot (a b : Z) : Z := wrap (a ÷ b).

Definition div (a b : Z) : option Z :=
  if (b =? 0) || ((a =? min_signed) && (b =? -1))
  then None
  else Some (quot a b).

End Int.

(** ** Results of a call *)

Inductive Error : Type :=
| OutOfDeviceMemory        (* the device cannot satisfy an allocation *)
| InvalidHandle            (* GetData on a chunk id the manager never issued *)
| AlgorithmSelectionFailed (* CUDNN_CALL around the algorithm query *)
| WorkspaceQueryFailed     (* CUDNN_CALL around the workspace-size query *)
| CudnnFailure             (* CUDNN_CALL around the forward primitive *)
| CudaFailure              (* CUDA_CALL around cudaFree *)
| UndefinedBehaviour.      (* division by zero, indeterminate or wild read *)

Inductive Result (A : Type) : Type :=
| Ok (a : A)
| Err (e : Error).
Arguments Ok {A} a.
Arguments Err {A} e.

Global Instance Result_ret : MRet Result := fun A a => Ok a.
Global Instance Result_bind : MBind Result := fun A B k r =>
  match r with
  | Ok a => k a
  | Err e => Err e
  end.

(** An [option] read as a result: [None] aborts with [e]. *)
Definition from_option {A} (e : Error) (o : option A) : Result A :=
  match o with Some a => Ok a | None => Err e end.

(** [for (int i = 0; i < bound; i++) body(i)], threading a state through
    the iterations and stopping at the first failure.  The counter stays
    below [bound], an [int], so [i++] never wraps. *)
Fixpoint for_upto {S : Type} (n : nat) (i : Z)
    (body : Z -> S -> Result S) (s : S) : Result S :=
  match n with
  | O => Ok s
  | Datatypes.S k => s' ← body i s; for_upto k (i + 1) body s'
  end.

Definition for_int {S : Type} (bound : Z)
    (body : Z -> S -> Result S) (s : S) : Result S :=
  for_upto (Z.to_nat bound) 0 body s.

(** [v[i]] on a [std::vector]: no bounds check, a wild read when [i] is out
    of range. *)
Definition vec_at {A} (v : list A) (i : Z) : Result A :=
  if i <? 0 then Err UndefinedBehaviour
  else from_option UndefinedBehaviour (v !! Z.to_nat i).

(** ** Parameter blocks ([dnn_param.h]) *)

(** Modelled from the spec: [DataDim], declared in [dnn_param.h]; the spec's
    ShapeDescriptor [{count, channels, height, width}], read by the header
    as the [int] members [n_], [c_], [h_], [w_], all zero when default
    constructed. *)
Record DataDim : Type := mkDataDim {
  n_ : Z;
  c_ : Z;
  h_ : Z;
  w_ : Z
}.

Definition DataDim_new : DataDim := mkDataDim 0 0 0 0.

(** Modelled from the spec: [ConvolutionParam], declared in [dnn_param.h];
    the members the header reads (kernel size, stride, padding,
    output-channel count, algorithm-selection preference), all [int] but
    the preference, an enumeration of the external library. *)
Record ConvolutionParam : Type := mkConvolutionParam {
  output_num_ : Z;
  pad_h_ : Z;
  pad_w_ : Z;
  stride_u_ : Z;
  stride_v_ : Z;
  kernel_size_h_ : Z;
  kernel_size_w_ : Z;
  conv_fwd_pref_ : Z
}.

(** ** Descriptors ([dnn_utility.h]) *)

(** Modelled from the spec: [DataTensor<T>], declared in [dnn_utility.h]; a
    tensor descriptor of the external library, empty when constructed and
    holding the four extents after [Set]. *)
Definition DataTensor : Type := option DataDim.

Definition DataTensor_new : DataTensor := None.
Definition DataTensor_Set (n c h w : Z) : DataTensor := Some (mkDataDim n c h w).

(** Modelled from the spec: [ConvolutionDesc<T>], declared in
    [dnn_utility.h]; the convolution descriptor built "from parameters and
    input channel count", seen by the library as a filter descriptor and a
    convolution descriptor. *)
Definition ConvolutionDesc : Type := option (ConvolutionParam * Z).

Definition ConvolutionDesc_new : ConvolutionDesc := None.
Definition ConvolutionDesc_Set (p : ConvolutionParam) (num_channel : Z)
  : ConvolutionDesc := Some (p, num_channel).

(** Filter descriptor: output channels, input channels, kernel extents. *)
Definition GetFilter (d : ConvolutionDesc) : option (Z * Z * Z * Z) :=
  match d with
  | Some (p, ch) => Some (output_num_ p, ch, kernel_size_h_ p, kernel_size_w_ p)
  | None => None
  end.

(** Convolution descriptor: padding and strides. *)
Definition GetConv (d : ConvolutionDesc) : option (Z * Z * Z * Z) :=
  match d with
  | Some (p, _) => Some (pad_h_ p, pad_w_ p, stride_u_ p, stride_v_ p)
  | None => None
  end.

(** Modelled from the spec: [DataType<T>::one] and [DataType<T>::zero],
    declared in [dnn_utility.h]; the unit scale-and-accumulate coefficients
    [alpha = 1], [beta = 0]. *)
Definition DataType_one : Z := 1.
Definition DataType_zero : Z := 0.

(** ** Calls that leave the header *)

Record AlgoQuery : Type := mkAlgoQuery {
  aq_handle : Z;
  aq_bottom_desc : DataTensor;
  aq_filter : option (Z * Z * Z * Z);
  aq_conv : option (Z * Z * Z * Z);
  aq_top_desc : DataTensor;
  aq_preference : Z;
  aq_memory_limit : Z
}.

Record WorkspaceQuery : Type := mkWorkspaceQuery {
  wq_handle : Z;
  wq_bottom_desc : DataTensor;
  wq_filter : option (Z * Z * Z * Z);
  wq_conv : option (Z * Z * Z * Z);
  wq_top_desc : DataTensor;
  wq_algo : Z
}.

Record ConvForward : Type := mkConvForward {
  cf_handle : Z;
  cf_alpha : Z;
  cf_bottom_desc : DataTensor;
  cf_bottom : Z;              (* device pointer of the input *)
  cf_filter : option (Z * Z * Z * Z);
  cf_weights : Z;             (* device pointer of the weights *)
  cf_conv : option (Z * Z * Z * Z);
  cf_algo : Z;
  cf_workspace : Z;           (* device pointer of the scratch memory *)
  cf_workspace_size : Z;
  cf_beta : Z;
  cf_top_desc : DataTensor;
  cf_top : Z                  (* device pointer of the output *)
}.

Inductive Event : Type :=
| CreateDataCall (size : Z) (chunk_id : Z)
| FillerCall (chunk_id : Z)
| GetForwardAlgorithmCall (q : AlgoQuery)
| GetForwardWorkspaceSizeCall (q : WorkspaceQuery)
| CudaMallocCall (bytes : Z) (ptr : Z)
| CudaFreeCall (ptr : Z)
| ProfilerStartCall
| ProfilerStopCall
| ConvolutionForwardCall (c : ConvForward).

(** The external collaborators, as far as the header depends on them: the
    element size of [T] and the answers of the primitives library, [None]
    and [false] standing for a status other than success. *)
Record Platform : Type := mkPlatform {
  sizeof_T : Z;
  cudnnGetConvolutionForwardAlgorithm : AlgoQuery -> option Z;
  cudnnGetConvolutionForwardWorkspaceSize : WorkspaceQuery -> option Z;
  cudnnConvolutionForward : ConvForward -> bool
}.

(** ** Device memory and the data manager *)

(** Modelled from the spec: the device allocate/free primitives of the
    accelerator runtime; an allocation succeeds when the request does not
    exceed the memory still available and yields an address never issued
    before, a release needs a live address.  Only the table of allocations
    is kept, not what the memory holds.  What a request for 0 bytes yields
    is not settled by the spec; it is served here like any other, and the
    statements below that would turn on it ask for a positive size. *)
Record Device : Type := mkDevice {
  dev_free : Z;               (* bytes still available *)
  dev_live : gmap Z Z;        (* live address -> bytes *)
  dev_next : Z                (* next address to issue *)
}.

Definition device_after_malloc (bytes : Z) (d : Device) : Device :=
  mkDevice (dev_free d - bytes)
           (<[dev_next d := bytes]> (dev_live d))
           (dev_next d + 1).

Definition device_malloc (bytes : Z) (d : Device) : option (Z * Device) :=
  if (0 <=? bytes) && (bytes <=? dev_free d)
  then Some (dev_next d, device_after_malloc bytes d)
  else None.

Definition device_free (ptr : Z) (d : Device) : option Device :=
  match dev_live d !! ptr with
  | Some bytes =>
      Some (mkDevice (dev_free d + bytes) (delete ptr (dev_live d)) (dev_next d))
  | None => None
  end.

(** Modelled from the spec: [Data<T>], declared in [data_manager.h]; the
    spec's Buffer, a sized region of device memory. *)
Record Data : Type := mkData {
  data_size : Z;              (* elements *)
  data_ptr : Z                (* device address, [Get()] *)
}.

(** Modelled from the spec: [DataManager<T>], declared in
    [data_manager.h]; the spec's BufferRegistry, "a mapping from handle to
    Buffer" with a "monotonically increasing handle counter". *)
Record DataManager : Type := mkDataManager {
  next_chunk_id : Z;
  chunks : gmap Z Data
}.

Record World : Type := mkWorld {
  device : Device;
  data_manager : DataManager;
  calls : list Event          (* oldest first *)
}.

Definition log (e : Event) (w : World) : World :=
  mkWorld (device w) (data_manager w) (calls w ++ [e]).

(** Modelled from the spec: [DataManager<T>::CreateData], declared in
    [data_manager.h]; [CreateBuffer(sizeInElements) -> handle] "allocates
    device memory of the requested size; fails with OutOfDeviceMemory if
    the accelerator cannot satisfy the request; never returns a handle
    aliasing an existing live buffer". *)
Definition CreateData (P : Platform) (size : Z) (w : World) : Result (Z * World) :=
  match device_malloc (size * sizeof_T P) (device w) with
  | Some (ptr, d) =>
      let id := next_chunk_id (data_manager w) in
      Ok (id,
          mkWorld d
                  (mkDataManager (id + 1)
                                 (<[id := mkData size ptr]> (chunks (data_manager w))))
                  (calls w ++ [CreateDataCall size id]))
  | None => Err OutOfDeviceMemory
  end.

(** Modelled from the spec: [DataManager<T>::GetData], declared in
    [data_manager.h]; [GetBuffer(handle)] "returns the buffer for a valid
    handle; fails with InvalidHandle (fatal) otherwise".  The [Data<T> *]
    it returns is represented by the chunk id the object is stored under. *)
Definition GetData (chunk_id : Z) (w : World) : Result Z :=
  match chunks (data_manager w) !! chunk_id with
  | Some _ => Ok chunk_id
  | None => Err InvalidHandle
  end.

(** Dereferencing a [Data<T> *]. *)
Definition deref (p : Z) (w : World) : Result Data :=
  from_option UndefinedBehaviour (chunks (data_manager w) !! p).

(** [p->Filler()]: the external fill routine, out of scope but for the
    call.  It writes the buffer; the contents of buffers are not part of
    the world, the logged call stands for the write. *)
Definition Filler (p : Z) (w : World) : Result World :=
  _ ← deref p w; Ok (log (FillerCall p) w).

(** [CUDA_CALL(cudaMalloc(&ptr, bytes))]. *)
Definition cudaMalloc (bytes : Z) (w : World) : Result (Z * World) :=
  match device_malloc bytes (device w) with
  | Some (ptr, d) =>
      Ok (ptr, mkWorld d (data_manager w) (calls w ++ [CudaMallocCall bytes ptr]))
  | None => Err OutOfDeviceMemory
  end.

(** [CUDA_CALL(cudaFree(ptr))]. *)
Definition cudaFree (ptr : Z) (w : World) : Result World :=
  match device_free ptr (device w) with
  | Some d => Ok (mkWorld d (data_manager w) (calls w ++ [CudaFreeCall ptr]))
  | None => Err CudaFailure
  end.

(** ** [class Layer] *)

Inductive LayerType : Type :=
| CONVOLUTION
| POOLING
| ACTIVIATION
| LRN
| FC
| SOFTMAX.

(** The data members of [Layer<T>].  [p_handle_] stands for the library
    handle behind [Handle *]; a [Data<T> *] is the chunk id of the object
    it points to.  The constructor leaves [type_] without a value: [None]
    is the indeterminate member. *)
Record Layer : Type := mkLayer {
  p_handle_ : Z;
  has_learnable_params_ : bool;
  type_ : option LayerType;
  layer_id_ : Z;
  layer_name_ : string;
  previous_layer_name_ : string;
  input_dim_ : DataDim;
  bottom_desc_ : DataTensor;
  num_inputs_ : Z;
  bottoms_ : list Z;
  bottom_chunk_ids_ : list Z;
  bottom_diffs_ : list Z;
  bottom_diff_chunk_ids_ : list Z
}.

Definition Layer_new (p_handle : Z) : Layer :=
  {| p_handle_ := p_handle;
     has_learnable_params_ := false;
     type_ := None;
     layer_id_ := 0;
     layer_name_ := EmptyString;
     previous_layer_name_ := EmptyString;
     input_dim_ := DataDim_new;
     bottom_desc_ := DataTensor_new;
     num_inputs_ := 1;
     bottoms_ := [];
     bottom_chunk_ids_ := [];
     bottom_diffs_ := [];
     bottom_diff_chunk_ids_ := [] |}.

Definition getInputDim (l : Layer) : DataDim := input_dim_ l.

(** Writing through the pointer [getInputDim] returns. *)
Definition setInputDim (d : DataDim) (l : Layer) : Layer :=
  mkLayer (p_handle_ l) (has_learnable_params_ l) (type_ l) (layer_id_ l)
          (layer_name_ l) (previous_layer_name_ l) d (bottom_desc_ l)
          (num_inputs_ l) (bottoms_ l) (bottom_chunk_ids_ l)
          (bottom_diffs_ l) (bottom_diff_chunk_ids_ l).

Definition setLayerName (layer_name : string) (l : Layer) : Layer :=
  mkLayer (p_handle_ l) (has_learnable_params_ l) (type_ l) (layer_id_ l)
          layer_name (previous_layer_name_ l) (input_dim_ l) (bottom_desc_ l)
          (num_inputs_ l) (bottoms_ l) (bottom_chunk_ids_ l)
          (bottom_diffs_ l) (bottom_diff_chunk_ids_ l).

Definition setPrevLayerName (previous_layer_name : string) (l : Layer) : Layer :=
  mkLayer (p_handle_ l) (has_learnable_params_ l) (type_ l) (layer_id_ l)
          (layer_name_ l) previous_layer_name (input_dim_ l) (bottom_desc_ l)
          (num_inputs_ l) (bottoms_ l) (bottom_chunk_ids_ l)
          (bottom_diffs_ l) (bottom_diff_chunk_ids_ l).

Definition setLayerId (layer_id : Z) (l : Layer) : Layer :=
  mkLayer (p_handle_ l) (has_learnable_params_ l) (type_ l) layer_id
          (layer_name_ l) (previous_layer_name_ l) (input_dim_ l) (bottom_desc_ l)
          (num_inputs_ l) (bottoms_ l) (bottom_chunk_ids_ l)
          (bottom_diffs_ l) (bottom_diff_chunk_ids_ l).

Definition getLayerId (l : Layer) : Z := layer_id_ l.

(** [void setLayerType(LayerType type) { type = type_; }]: the assignment
    goes to the by-value parameter, which dies with the call; no member is
    written. *)
Definition setLayerType (type : LayerType) (l : Layer) : Layer :=
  let type := type_ l in l.

Definition getLayerType (l : Layer) : option LayerType := type_ l.

Definition set_bottom_desc_ (d : DataTensor) (l : Layer) : Layer :=
  mkLayer (p_handle_ l) (has_learnable_params_ l) (type_ l) (layer_id_ l)
          (layer_name_ l) (previous_layer_name_ l) (input_dim_ l) d
          (num_inputs_ l) (bottoms_ l) (bottom_chunk_ids_ l)
          (bottom_diffs_ l) (bottom_diff_chunk_ids_ l).

Definition push_bottoms_ (p : Z) (l : Layer) : Layer :=
  mkLayer (p_handle_ l) (has_learnable_params_ l) (type_ l) (layer_id_ l)
          (layer_name_ l) (previous_layer_name_ l) (input_dim_ l) (bottom_desc_ l)
          (num_inputs_ l) (bottoms_ l ++ [p]) (bottom_chunk_ids_ l)
          (bottom_diffs_ l) (bottom_diff_chunk_ids_ l).

Definition push_bottom_chunk_ids_ (id : Z) (l : Layer) : Layer :=
  mkLayer (p_handle_ l) (has_learnable_params_ l) (type_ l) (layer_id_ l)
          (layer_name_ l) (previous_layer_name_ l) (input_dim_ l) (bottom_desc_ l)
          (num_inputs_ l) (bottoms_ l) (bottom_chunk_ids_ l ++ [id])
          (bottom_diffs_ l) (bottom_diff_chunk_ids_ l).

Definition push_bottom_diffs_ (p : Z) (l : Layer) : Layer :=
  mkLayer (p_handle_ l) (has_learnable_params_ l) (type_ l) (layer_id_ l)
          (layer_name_ l) (previous_layer_name_ l) (input_dim_ l) (bottom_desc_ l)
          (num_inputs_ l) (bottoms_ l) (bottom_chunk_ids_ l)
          (bottom_diffs_ l ++ [p]) (bottom_diff_chunk_ids_ l).

Definition push_bottom_diff_chunk_ids_ (id : Z) (l : Layer) : Layer :=
  mkLayer (p_handle_ l) (has_learnable_params_ l) (type_ l) (layer_id_ l)
          (layer_name_ l) (previous_layer_name_ l) (input_dim_ l) (bottom_desc_ l)
          (num_inputs_ l) (bottoms_ l) (bottom_chunk_ids_ l)
          (bottom_diffs_ l) (bottom_diff_chunk_ids_ l ++ [id]).

(** The test both [Setup]s make: every extent of the input differs from 0. *)
Definition standalone (d : DataDim) : bool :=
  negb (n_ d =? 0) && negb (c_ d =? 0) && negb (h_ d =? 0) && negb (w_ d =? 0).

(** [n_ * c_ * h_ * w_] on [int], products taken left to right. *)
Definition dim_size (d : DataDim) : Z :=
  Int.mul (Int.mul (Int.mul (n_ d) (c_ d)) (h_ d)) (w_ d).

(** One iteration of the loop of [Layer::Setup]. *)
Definition Layer_Setup_body (P : Platform) (bottom_size : Z) (i : Z)
    (s : Layer * World) : Result (Layer * World) :=
  let '(l, w) := s in
  '(id, w) ← CreateData P bottom_size w;
  let l := push_bottom_chunk_ids_ id l in
  cid ← vec_at (bottom_chunk_ids_ l) i;
  p ← GetData cid w;
  let l := push_bottoms_ p l in
  '(id, w) ← CreateData P bottom_size w;
  let l := push_bottom_diff_chunk_ids_ id l in
  cid ← vec_at (bottom_diff_chunk_ids_ l) i;
  p ← GetData cid w;
  let l := push_bottom_diffs_ p l in
  Ok (l, w).

(** [virtual void Layer::Setup()]. *)
Definition Layer_Setup (P : Platform) (l : Layer) (w : World)
  : Result (Layer * World) :=
  if standalone (input_dim_ l) then
    let l := set_bottom_desc_
               (DataTensor_Set (n_ (input_dim_ l)) (c_ (input_dim_ l))
                               (h_ (input_dim_ l)) (w_ (input_dim_ l))) l in
    let bottom_size := dim_size (input_dim_ l) in
    for_int (num_inputs_ l) (Layer_Setup_body P bottom_size) (l, w)
  else Ok (l, w).

(** [virtual void ForwardPropagation() {}] and
    [virtual void BackwardPropagation() {}]. *)
Definition Layer_ForwardPropagation (l : Layer) (w : World)
  : Result (Layer * World) := Ok (l, w).

Definition Layer_BackwardPropagation (l : Layer) (w : World)
  : Result (Layer * World) := Ok (l, w).

(** ** [class ConvolutionLayer : public Layer] *)

(** The members the constructor does not initialise ([weights_] to
    [workspace_]) hold [None] until [Setup] assigns them; reading one
    before is undefined behaviour. *)
Record ConvolutionLayer : Type := mkConvolutionLayer {
  base : Layer;
  conv_param_ : ConvolutionParam;
  desc_ : ConvolutionDesc;
  num_outputs_ : Z;
  output_dim_ : DataDim;
  top_desc_ : DataTensor;
  tops_ : list Z;
  top_chunk_ids_ : list Z;
  top_diffs_ : list Z;
  top_diff_chunk_ids_ : list Z;
  weights_ : option Z;
  weights_chunk_id_ : option Z;
  weights_diff_ : option Z;
  weights_diff_chunk_id_ : option Z;
  fwd_algo_ : option Z;
  fwd_workspace_size_ : option Z;
  bwd_workspace_data_size_ : option Z;
  bwd_workspace_filter_size_ : option Z;
  workspace_ : option Z
}.

(** The constructor; [conv_param] is the default-constructed parameter
    block of [dnn_param.h]. *)
Definition ConvolutionLayer_new (p_handle : Z) (conv_param : ConvolutionParam)
  : ConvolutionLayer :=
  let b := Layer_new p_handle in
  {| base := mkLayer (p_handle_ b) true (type_ b) (layer_id_ b)
                     (layer_name_ b) (previous_layer_name_ b) (input_dim_ b)
                     (bottom_desc_ b) (num_inputs_ b) (bottoms_ b)
                     (bottom_chunk_ids_ b) (bottom_diffs_ b)
                     (bottom_diff_chunk_ids_ b);
     conv_param_ := conv_param;
     desc_ := ConvolutionDesc_new;
     num_outputs_ := num_inputs_ b;
     output_dim_ := DataDim_new;
     top_desc_ := DataTensor_new;
     tops_ := [];
     top_chunk_ids_ := [];
     top_diffs_ := [];
     top_diff_chunk_ids_ := [];
     weights_ := None;
     weights_chunk_id_ := None;
     weights_diff_ := None;
     weights_diff_chunk_id_ := None;
     fwd_algo_ := None;
     fwd_workspace_size_ := None;
     bwd_workspace_data_size_ := None;
     bwd_workspace_filter_size_ := None;
     workspace_ := None |}.

Definition getConvParam (cl : ConvolutionLayer) : ConvolutionParam :=
  conv_param_ cl.

Definition set_base (b : Layer) (cl : ConvolutionLayer) : ConvolutionLayer :=
  mkConvolutionLayer b (conv_param_ cl) (desc_ cl) (num_outputs_ cl)
    (output_dim_ cl) (top_desc_ cl) (tops_ cl) (top_chunk_ids_ cl)
    (top_diffs_ cl) (top_diff_chunk_ids_ cl) (weights_ cl)
    (weights_chunk_id_ cl) (weights_diff_ cl) (weights_diff_chunk_id_ cl)
    (fwd_algo_ cl) (fwd_workspace_size_ cl) (bwd_workspace_data_size_ cl)
    (bwd_workspace_filter_size_ cl) (workspace_ cl).

(** Writing through the pointer [getConvParam] returns. *)
Definition setConvParam (p : ConvolutionParam) (cl : ConvolutionLayer)
  : ConvolutionLayer :=
  mkConvolutionLayer (base cl) p (desc_ cl) (num_outputs_ cl)
    (output_dim_ cl) (top_desc_ cl) (tops_ cl) (top_chunk_ids_ cl)
    (top_diffs_ cl) (top_diff_chunk_ids_ cl) (weights_ cl)
    (weights_chunk_id_ cl) (weights_diff_ cl) (weights_diff_chunk_id_ cl)
    (fwd_algo_ cl) (fwd_workspace_size_ cl) (bwd_workspace_data_size_ cl)
    (bwd_workspace_filter_size_ cl) (workspace_ cl).

Definition set_desc_ (d : ConvolutionDesc) (cl : ConvolutionLayer)
  : ConvolutionLayer :=
  mkConvolutionLayer (base cl) (conv_param_ cl) d (num_outputs_ cl)
    (output_dim_ cl) (top_desc_ cl) (tops_ cl) (top_chunk_ids_ cl)
    (top_diffs_ cl) (top_diff_chunk_ids_ cl) (weights_ cl)
    (weights_chunk_id_ cl) (weights_diff_ cl) (weights_diff_chunk_id_ cl)
    (fwd_algo_ cl) (fwd_workspace_size_ cl) (bwd_workspace_data_size_ cl)
    (bwd_workspace_filter_size_ cl) (workspace_ cl).

Definition set_output_dim_ (d : DataDim) (cl : ConvolutionLayer)
  : ConvolutionLayer :=
  mkConvolutionLayer (base cl) (conv_param_ cl) (desc_ cl) (num_outputs_ cl)
    d (top_desc_ cl) (tops_ cl) (top_chunk_ids_ cl)
    (top_diffs_ cl) (top_diff_chunk_ids_ cl) (weights_ cl)
    (weights_chunk_id_ cl) (weights_diff_ cl) (weights_diff_chunk_id_ cl)
    (fwd_algo_ cl) (fwd_workspace_size_ cl) (bwd_workspace_data_size_ cl)
    (bwd_workspace_filter_size_ cl) (workspace_ cl).

Definition set_top_desc_ (d : DataTensor) (cl : ConvolutionLayer)
  : ConvolutionLayer :=
  mkConvolutionLayer (base cl) (conv_param_ cl) (desc_ cl) (num_outputs_ cl)
    (output_dim_ cl) d (tops_ cl) (top_chunk_ids_ cl)
    (top_diffs_ cl) (top_diff_chunk_ids_ cl) (weights_ cl)
    (weights_chunk_id_ cl) (weights_diff_ cl) (weights_diff_chunk_id_ cl)
    (fwd_algo_ cl) (fwd_workspace_size_ cl) (bwd_workspace_data_size_ cl)
    (bwd_workspace_filter_size_ cl) (workspace_ cl).

(** The four output vectors at once. *)
Definition set_tops (tops ids diffs diff_ids : list Z) (cl : ConvolutionLayer)
  : ConvolutionLayer :=
  mkConvolutionLayer (base cl) (conv_param_ cl) (desc_ cl) (num_outputs_ cl)
    (output_dim_ cl) (top_desc_ cl) tops ids diffs diff_ids (weights_ cl)
    (weights_chunk_id_ cl) (weights_diff_ cl) (weights_diff_chunk_id_ cl)
    (fwd_algo_ cl) (fwd_workspace_size_ cl) (bwd_workspace_data_size_ cl)
    (bwd_workspace_filter_size_ cl) (workspace_ cl).

Definition push_top_chunk_ids_ (id : Z) (cl : ConvolutionLayer) :=
  set_tops (tops_ cl) (top_chunk_ids_ cl ++ [id]) (top_diffs_ cl)
           (top_diff_chunk_ids_ cl) cl.

Definition push_tops_ (p : Z) (cl : ConvolutionLayer) :=
  set_tops (tops_ cl ++ [p]) (top_chunk_ids_ cl) (top_diffs_ cl)
           (top_diff_chunk_ids_ cl) cl.

Definition push_top_diff_chunk_ids_ (id : Z) (cl : ConvolutionLayer) :=
  set_tops (tops_ cl) (top_chunk_ids_ cl) (top_diffs_ cl)
           (top_diff_chunk_ids_ cl ++ [id]) cl.

Definition push_top_diffs_ (p : Z) (cl : ConvolutionLayer) :=
  set_tops (tops_ cl) (top_chunk_ids_ cl) (top_diffs_ cl ++ [p])
           (top_diff_chunk_ids_ cl) cl.

Definition set_weights (weights chunk_id diff diff_chunk_id : option Z)
    (cl : ConvolutionLayer) : ConvolutionLayer :=
  mkConvolutionLayer (base cl) (conv_param_ cl) (desc_ cl) (num_outputs_ cl)
    (output_dim_ cl) (top_desc_ cl) (tops_ cl) (top_chunk_ids_ cl)
    (top_diffs_ cl) (top_diff_chunk_ids_ cl) weights chunk_id diff
    diff_chunk_id
    (fwd_algo_ cl) (fwd_workspace_size_ cl) (bwd_workspace_data_size_ cl)
    (bwd_workspace_filter_size_ cl) (workspace_ cl).

Definition set_fwd (algo size workspace : option Z) (cl : ConvolutionLayer)
  : ConvolutionLayer :=
  mkConvolutionLayer (base cl) (conv_param_ cl) (desc_ cl) (num_outputs_ cl)
    (output_dim_ cl) (top_desc_ cl) (tops_ cl) (top_chunk_ids_ cl)
    (top_diffs_ cl) (top_diff_chunk_ids_ cl) (weights_ cl)
    (weights_chunk_id_ cl) (weights_diff_ cl) (weights_diff_chunk_id_ cl)
    algo size (bwd_workspace_data_size_ cl)
    (bwd_workspace_filter_size_ cl) workspace.

(** [void ComputeOutputDim()]. *)
Definition ComputeOutputDim (cl : ConvolutionLayer) : Result ConvolutionLayer :=
  let i := input_dim_ (base cl) in
  let p := conv_param_ cl in
  qh ← from_option UndefinedBehaviour
         (Int.div (Int.sub (Int.add (h_ i) (Int.mul 2 (pad_h_ p)))
                           (kernel_size_h_ p))
                  (stride_u_ p));
  qw ← from_option UndefinedBehaviour
         (Int.div (Int.sub (Int.add (w_ i) (Int.mul 2 (pad_w_ p)))
                           (kernel_size_w_ p))
                  (stride_v_ p));
  Ok (set_output_dim_
        (mkDataDim (n_ i) (output_num_ p) (Int.add qh 1) (Int.add qw 1)) cl).

(** One iteration of the output loop of [ConvolutionLayer::Setup]. *)
Definition ConvolutionLayer_Setup_body (P : Platform) (top_size : Z) (i : Z)
    (s : ConvolutionLayer * World) : Result (ConvolutionLayer * World) :=
  let '(cl, w) := s in
  '(id, w) ← CreateData P top_size w;
  let cl := push_top_chunk_ids_ id cl in
  cid ← vec_at (top_chunk_ids_ cl) i;
  p ← GetData cid w;
  let cl := push_tops_ p cl in
  '(id, w) ← CreateData P top_size w;
  let cl := push_top_diff_chunk_ids_ id cl in
  cid ← vec_at (top_diff_chunk_ids_ cl) i;
  p ← GetData cid w;
  let cl := push_top_diffs_ p cl in
  Ok (cl, w).

(** [conv_param_.output_num_ * input_dim_.c_ * kernel_size_h_ *
    kernel_size_w_] on [int]. *)
Definition weights_size_of (cl : ConvolutionLayer) : Z :=
  Int.mul (Int.mul (Int.mul (output_num_ (conv_param_ cl))
                            (c_ (input_dim_ (base cl))))
                   (kernel_size_h_ (conv_param_ cl)))
          (kernel_size_w_ (conv_param_ cl)).

(** The standalone branch of [ConvolutionLayer::Setup]: output extents,
    output buffers, the weights. *)
Definition ConvolutionLayer_Setup_data (P : Platform) (cl : ConvolutionLayer)
    (w : World) : Result (ConvolutionLayer * World) :=
  cl ← ComputeOutputDim cl;
  let cl := set_top_desc_
              (DataTensor_Set (n_ (output_dim_ cl)) (c_ (output_dim_ cl))
                              (h_ (output_dim_ cl)) (w_ (output_dim_ cl))) cl in
  let top_size := dim_size (output_dim_ cl) in
  '(cl, w) ← for_int (num_outputs_ cl)
                     (ConvolutionLayer_Setup_body P top_size) (cl, w);
  let weights_size := weights_size_of cl in
  '(id, w) ← CreateData P weights_size w;
  let cl := set_weights (weights_ cl) (Some id) (weights_diff_ cl)
                        (weights_diff_chunk_id_ cl) cl in
  p ← GetData id w;
  let cl := set_weights (Some p) (weights_chunk_id_ cl) (weights_diff_ cl)
                        (weights_diff_chunk_id_ cl) cl in
  '(id, w) ← CreateData P weights_size w;
  let cl := set_weights (weights_ cl) (weights_chunk_id_ cl) (weights_diff_ cl)
                        (Some id) cl in
  p ← GetData id w;
  let cl := set_weights (weights_ cl) (weights_chunk_id_ cl) (Some p)
                        (weights_diff_chunk_id_ cl) cl in
  Ok (cl, w).

(** The arguments of the two queries, read off the members. *)
Definition fwd_algo_query (cl : ConvolutionLayer) : AlgoQuery :=
  mkAlgoQuery (p_handle_ (base cl)) (bottom_desc_ (base cl))
              (GetFilter (desc_ cl)) (GetConv (desc_ cl))
              (top_desc_ cl) (conv_fwd_pref_ (conv_param_ cl)) (-1).

Definition fwd_workspace_query (cl : ConvolutionLayer) (algo : Z)
  : WorkspaceQuery :=
  mkWorkspaceQuery (p_handle_ (base cl)) (bottom_desc_ (base cl))
                   (GetFilter (desc_ cl)) (GetConv (desc_ cl))
                   (top_desc_ cl) algo.

(** The algorithm query, the workspace-size query and the allocation of
    the scratch memory that end [ConvolutionLayer::Setup]. *)
Definition ConvolutionLayer_Setup_algo (P : Platform) (cl : ConvolutionLayer)
    (w : World) : Result (ConvolutionLayer * World) :=
  let aq := fwd_algo_query cl in
  algo ← from_option AlgorithmSelectionFailed
           (cudnnGetConvolutionForwardAlgorithm P aq);
  let w := log (GetForwardAlgorithmCall aq) w in
  let cl := set_fwd (Some algo) (fwd_workspace_size_ cl) (workspace_ cl) cl in
  let wq := fwd_workspace_query cl algo in
  size ← from_option WorkspaceQueryFailed
           (cudnnGetConvolutionForwardWorkspaceSize P wq);
  let w := log (GetForwardWorkspaceSizeCall wq) w in
  let cl := set_fwd (fwd_algo_ cl) (Some size) (workspace_ cl) cl in
  '(ptr, w) ← cudaMalloc size w;
  let cl := set_fwd (fwd_algo_ cl) (fwd_workspace_size_ cl) (Some ptr) cl in
  Ok (cl, w).

(** [void ConvolutionLayer::Setup()]. *)
Definition ConvolutionLayer_Setup (P : Platform) (cl : ConvolutionLayer)
    (w : World) : Result (ConvolutionLayer * World) :=
  '(b, w) ← Layer_Setup P (base cl) w;
  let cl := set_base b cl in
  let cl := set_desc_ (ConvolutionDesc_Set (conv_param_ cl)
                                           (c_ (input_dim_ (base cl)))) cl in
  '(cl, w) ← (if standalone (input_dim_ (base cl))
              then ConvolutionLayer_Setup_data P cl w
              else Ok (cl, w));
  ConvolutionLayer_Setup_algo P cl w.

(** The two loops of [ConvolutionLayer::ForwardPropagation].  The library
    call writes the output buffer and may use the scratch memory; as for
    [Filler], the logged call stands for these writes. *)
Definition fill_body (cl : ConvolutionLayer) (i : Z) (w : World) : Result World :=
  b ← vec_at (bottoms_ (base cl)) i;
  Filler b w.

Definition forward_body (P : Platform) (cl : ConvolutionLayer) (i : Z)
    (w : World) : Result World :=
  b ← vec_at (bottoms_ (base cl)) i;
  bd ← deref b w;
  wp ← from_option UndefinedBehaviour (weights_ cl);
  wd ← deref wp w;
  algo ← from_option UndefinedBehaviour (fwd_algo_ cl);
  ws ← from_option UndefinedBehaviour (workspace_ cl);
  size ← from_option UndefinedBehaviour (fwd_workspace_size_ cl);
  t ← vec_at (tops_ cl) i;
  td ← deref t w;
  let c := mkConvForward (p_handle_ (base cl)) DataType_one
             (bottom_desc_ (base cl)) (data_ptr bd)
             (GetFilter (desc_ cl)) (data_ptr wd)
             (GetConv (desc_ cl))
             algo ws size
             DataType_zero
             (top_desc_ cl) (data_ptr td) in
  if cudnnConvolutionForward P c
  then Ok (log (ConvolutionForwardCall c) w)
  else Err CudnnFailure.

(** [void ConvolutionLayer::ForwardPropagation()]. *)
Definition ConvolutionLayer_ForwardPropagation (P : Platform)
    (cl : ConvolutionLayer) (w : World) : Result (ConvolutionLayer * World) :=
  wp ← from_option UndefinedBehaviour (weights_ cl);
  w ← Filler wp w;
  w ← for_int (num_inputs_ (base cl)) (fill_body cl) w;
  let w := log ProfilerStartCall w in
  w ← for_int (num_inputs_ (base cl)) (forward_body P cl) w;
  let w := log ProfilerStopCall w in
  ws ← from_option UndefinedBehaviour (workspace_ cl);
  w ← cudaFree ws w;
  Ok (cl, w).

(** [void ConvolutionLayer::BackwardPropagation() { }]. *)
Definition ConvolutionLayer_BackwardPropagation (cl : ConvolutionLayer)
    (w : World) : Result (ConvolutionLayer * World) := Ok (cl, w).

(** ** Vocabulary of the statements *)

(** The common shape of the two allocation loops, on the four vectors
    [(data, chunk ids, diffs, diff chunk ids)] they push to. *)
Definition Quad : Type := (list Z * list Z * list Z * list Z)%type.

Definition alloc_body (P : Platform) (size : Z) (i : Z) (s : Quad * World)
  : Result (Quad * World) :=
  let '((ps, ids, dps, dids), w) := s in
  '(id, w) ← CreateData P size w;
  let ids := ids ++ [id] in
  cid ← vec_at ids i;
  p ← GetData cid w;
  let ps := ps ++ [p] in
  '(id, w) ← CreateData P size w;
  let dids := dids ++ [id] in
  cid ← vec_at dids i;
  p ← GetData cid w;
  let dps := dps ++ [p] in
  Ok ((ps, ids, dps, dids), w).

Definition bottom_quad (l : Layer) : Quad :=
  (bottoms_ l, bottom_chunk_ids_ l, bottom_diffs_ l, bottom_diff_chunk_ids_ l).

Definition set_bottom_quad (q : Quad) (l : Layer) : Layer :=
  let '(ps, ids, dps, dids) := q in
  mkLayer (p_handle_ l) (has_learnable_params_ l) (type_ l) (layer_id_ l)
          (layer_name_ l) (previous_layer_name_ l) (input_dim_ l) (bottom_desc_ l)
          (num_inputs_ l) ps ids dps dids.

Definition top_quad (cl : ConvolutionLayer) : Quad :=
  (tops_ cl, top_chunk_ids_ cl, top_diffs_ cl, top_diff_chunk_ids_ cl).

Definition set_top_quad (q : Quad) (cl : ConvolutionLayer) : ConvolutionLayer :=
  let '(ps, ids, dps, dids) := q in set_tops ps ids dps dids cl.

(** A chunk id the manager holds a buffer for. *)
Definition live (w : World) (id : Z) : Prop :=
  is_Some (chunks (data_manager w) !! id).

(** [k, k+2, ..., k+2(n-1)]: the ids every other call of a run of
    [CreateData] calls returns. *)
Fixpoint evens (k : Z) (n : nat) : list Z :=
  match n with
  | O => []
  | S n' => k :: evens (k + 2) n'
  end.

(** The world a successful [CreateData P size] leaves. *)
Definition world_after_create (P : Platform) (size : Z) (w : World) : World :=
  let id := next_chunk_id (data_manager w) in
  mkWorld (device_after_malloc (size * sizeof_T P) (device w))
          (mkDataManager (id + 1)
             (<[id := mkData size (dev_next (device w))]> (chunks (data_manager w))))
          (calls w ++ [CreateDataCall size id]).

Fixpoint after_creates (P : Platform) (size : Z) (m : nat) (w : World) : World :=
  match m with
  | O => w
  | S m' => after_creates P size m' (world_after_create P size w)
  end.

(** [m] consecutive [CreateData] calls of one size, ids from [k] on. *)
Fixpoint create_calls (size : Z) (k : Z) (m : nat) : list Event :=
  match m with
  | O => []
  | S m' => CreateDataCall size k :: create_calls size (k + 1) m'
  end.

Definition is_CudaMalloc (e : Event) : bool :=
  match e with CudaMallocCall _ _ => true | _ => false end.

Definition handles_live (w : World) (ids : list Z) : Prop :=
  forall id, id ∈ ids -> live w id.

(** What one output extent evaluates to when the stride is not zero. *)
Definition conv_extent (i pad k s : Z) : Z :=
  Int.add (Int.quot (Int.sub (Int.add i (Int.mul 2 pad)) k) s) 1.

(** No intermediate value of [conv_extent] leaves the range of [int]. *)
Definition extent_fits (i pad k s : Z) : Prop :=
  Int.fits (2 * pad) /\ Int.fits (i + 2 * pad) /\
  Int.fits (i + 2 * pad - k) /\ Int.fits ((i + 2 * pad - k) ÷ s) /\
  Int.fits ((i + 2 * pad - k) ÷ s + 1).

Definition out_dim (cl : ConvolutionLayer) : DataDim :=
  let i := input_dim_ (base cl) in
  let p := conv_param_ cl in
  mkDataDim (n_ i) (output_num_ p)
            (conv_extent (h_ i) (pad_h_ p) (kernel_size_h_ p) (stride_u_ p))
            (conv_extent (w_ i) (pad_w_ p) (kernel_size_w_ p) (stride_v_ p)).

(** No partial product of [a * b * c * d] leaves the range of [int]. *)
Definition prod4_fits (a b c d : Z) : Prop :=
  Int.fits (a * b) /\ Int.fits (a * b * c) /\ Int.fits (a * b * c * d).

(** The dividend of one output extent, as [int] arithmetic computes it. *)
Definition conv_dividend (i pad k : Z) : Z :=
  Int.sub (Int.add i (Int.mul 2 pad)) k.

(** [a / b] is defined on [int]. *)
Definition div_defined (a b : Z) : Prop :=
  b <> 0 /\ (a = Int.min_signed -> b <> -1).

(** Both divisions of [ComputeOutputDim] are defined. *)
Definition extents_defined (cl : ConvolutionLayer) : Prop :=
  let i := input_dim_ (base cl) in
  let p := conv_param_ cl in
  (div_defined (conv_dividend (h_ i) (pad_h_ p) (kernel_size_h_ p))
               (stride_u_ p) /\
   div_defined (conv_dividend (w_ i) (pad_w_ p) (kernel_size_w_ p))
               (stride_v_ p))%type.

(** The queries a standalone [Setup] sends for the layer [cl] it starts
    from. *)
Definition algo_query (cl : ConvolutionLayer) : AlgoQuery :=
  let d := ConvolutionDesc_Set (conv_param_ cl) (c_ (input_dim_ (base cl))) in
  let i := input_dim_ (base cl) in
  let o := out_dim cl in
  mkAlgoQuery (p_handle_ (base cl))
              (DataTensor_Set (n_ i) (c_ i) (h_ i) (w_ i))
              (GetFilter d) (GetConv d)
              (DataTensor_Set (n_ o) (c_ o) (h_ o) (w_ o))
              (conv_fwd_pref_ (conv_param_ cl)) (-1).

Definition workspace_query (cl : ConvolutionLayer) (algo : Z) : WorkspaceQuery :=
  let q := algo_query cl in
  mkWorkspaceQuery (aq_handle q) (aq_bottom_desc q) (aq_filter q) (aq_conv q)
                   (aq_top_desc q) algo.

(** The call iteration [i] of the forward loop passes to the library, when
    every pointer it reads is there to read. *)
Definition conv_call (cl : ConvolutionLayer) (dm : DataManager) (i : nat)
  : option ConvForward :=
  b ← bottoms_ (base cl) !! i;
  bd ← chunks dm !! b;
  wp ← weights_ cl;
  wd ← chunks dm !! wp;
  algo ← fwd_algo_ cl;
  ws ← workspace_ cl;
  size ← fwd_workspace_size_ cl;
  t ← tops_ cl !! i;
  td ← chunks dm !! t;
  Some (mkConvForward (p_handle_ (base cl)) DataType_one
          (bottom_desc_ (base cl)) (data_ptr bd)
          (GetFilter (desc_ cl)) (data_ptr wd)
          (GetConv (desc_ cl))
          algo ws size
          DataType_zero
          (top_desc_ cl) (data_ptr td)).

Definition conv_call_ok (P : Platform) (cl : ConvolutionLayer)
    (dm : DataManager) (i : nat) : bool :=
  match conv_call cl dm i with
  | Some c => cudnnConvolutionForward P c
  | None => false
  end.

(** A layer [ForwardPropagation] can run on: the weights are there, the
    scratch memory is allocated, and each of the [num_inputs_] library
    calls finds its operands and succeeds. *)
Definition ready (P : Platform) (cl : ConvolutionLayer) (w : World) : bool :=
  match weights_ cl, workspace_ cl with
  | Some wp, Some ws =>
      bool_decide (is_Some (chunks (data_manager w) !! wp))
      && bool_decide (is_Some (dev_live (device w) !! ws))
      && forallb (conv_call_ok P cl (data_manager w))
                 (seq 0 (Z.to_nat (num_inputs_ (base cl))))
  | _, _ => false
  end.

(** The calls of a forward pass over a ready layer. *)
Definition fill_calls (cl : ConvolutionLayer) : list Event :=
  FillerCall <$> take (Z.to_nat (num_inputs_ (base cl))) (bottoms_ (base cl)).

Definition conv_calls (cl : ConvolutionLayer) (dm : DataManager) (i n : nat)
  : list ConvForward :=
  omap (conv_call cl dm) (seq i n).

(** The layer the standalone branch of [Layer::Setup] hands back. *)
Definition base_after_Setup (l : Layer) (k : Z) : Layer :=
  let n := Z.to_nat (num_inputs_ l) in
  set_bottom_quad
    (bottoms_ l ++ take n (bottom_chunk_ids_ l ++ evens k n),
     bottom_chunk_ids_ l ++ evens k n,
     bottom_diffs_ l ++ take n (bottom_diff_chunk_ids_ l ++ evens (k + 1) n),
     bottom_diff_chunk_ids_ l ++ evens (k + 1) n)
    (set_bottom_desc_
       (DataTensor_Set (n_ (input_dim_ l)) (c_ (input_dim_ l))
                       (h_ (input_dim_ l)) (w_ (input_dim_ l))) l).

(** The layer a standalone [ConvolutionLayer::Setup] hands back, [k] the
    first chunk id it is given. *)
Definition conv_after_Setup (cl : ConvolutionLayer) (k : Z)
    (algo size ptr : Z) : ConvolutionLayer :=
  let n := Z.to_nat (num_inputs_ (base cl)) in
  let m := Z.to_nat (num_outputs_ cl) in
  let o := out_dim cl in
  let kt := k + 2 * Z.of_nat n in
  let kw := kt + 2 * Z.of_nat m in
  set_fwd (Some algo) (Some size) (Some ptr)
    (set_weights (Some kw) (Some kw) (Some (kw + 1)) (Some (kw + 1))
       (set_top_quad
          (tops_ cl ++ take m (top_chunk_ids_ cl ++ evens kt m),
           top_chunk_ids_ cl ++ evens kt m,
           top_diffs_ cl ++ take m (top_diff_chunk_ids_ cl ++ evens (kt + 1) m),
           top_diff_chunk_ids_ cl ++ evens (kt + 1) m)
          (set_top_desc_ (DataTensor_Set (n_ o) (c_ o) (h_ o) (w_ o))
             (set_output_dim_ o
                (set_desc_ (ConvolutionDesc_Set (conv_param_ cl)
                                                (c_ (input_dim_ (base cl))))
                           (set_base (base_after_Setup (base cl) k) cl)))))).

(** ** A concrete run

    [float] elements, a library that picks algorithm 1 and asks for no
    scratch memory, an empty device of 1 MB, and the convolution of the
    spec's end-to-end scenario: input [(2,3,8,8)], kernel [3x3], stride 1,
    padding 1, 4 output channels. *)
Definition example_platform : Platform :=
  mkPlatform 4 (fun _ => Some 1) (fun _ => Some 0) (fun _ => true).

Definition example_world : World :=
  mkWorld (mkDevice 1000000 ∅ 1) (mkDataManager 0 ∅) [].

Definition example_param : ConvolutionParam :=
  mkConvolutionParam 4 1 1 1 1 3 3 0.

Definition example_fresh : ConvolutionLayer :=
  ConvolutionLayer_new 7 example_param.

Definition example_layer : ConvolutionLayer :=
  set_base (setInputDim (mkDataDim 2 3 8 8) (base example_fresh)) example_fresh.

(** A [1x1] input under a [2x2] kernel with stride 2 and no padding. *)
Definition example_small : ConvolutionLayer :=
  setConvParam (mkConvolutionParam 1 0 0 2 2 2 2 0)
    (set_base (setInputDim (mkDataDim 1 1 1 1) (base example_fresh))
              example_fresh).

(** [example_layer] and the world after its [Setup]. *)
Definition example_ready : ConvolutionLayer * World :=
  match ConvolutionLayer_Setup example_platform example_layer example_world with
  | Ok s => s
  | Err _ => (example_layer, example_world)
  end.

(** [w'] is [w] after some more calls: no address freed, no buffer
    dropped or changed, nothing taken out of the log. *)
Definition extends (w w' : World) : Prop :=
  dev_next (device w) <= dev_next (device w') /\
  (forall p, p < dev_next (device w) ->
     dev_live (device w') !! p = dev_live (device w) !! p) /\
  next_chunk_id (data_manager w) <= next_chunk_id (data_manager w') /\
  (forall id, id < next_chunk_id (data_manager w) ->
     chunks (data_manager w') !! id = chunks (data_manager w) !! id) /\
  exists es, calls w' = calls w ++ es.

(** Two worlds that differ in the log only. *)
Definition logged (w w' : World) : Prop :=
  device w' = device w /\ data_manager w' = data_manager w /\
  exists es, calls w' = calls w ++ es.

(** More of the concrete run: a shape with one extent zero, a stride of
    zero, a device too small for the input buffers, and [Setup] called a
    second time. *)
Definition example_partial : Layer :=
  setInputDim (mkDataDim 2 3 0 8) (base example_fresh).

Definition example_zero_stride : ConvolutionLayer :=
  setConvParam (mkConvolutionParam 4 1 1 0 1 3 3 0) example_layer.

Definition example_small_world : World :=
  mkWorld (mkDevice 2000 ∅ 1) (mkDataManager 0 ∅) [].

Definition example_twice : ConvolutionLayer * World :=
  match ConvolutionLayer_Setup example_platform
          (fst example_ready) (snd example_ready) with
  | Ok s => s
  | Err _ => example_ready
  end.

(** The same run with a library that asks for 4096 bytes of scratch
    memory. *)
Definition example_platform_scratch : Platform :=
  mkPlatform 4 (fun _ => Some 1) (fun _ => Some 4096) (fun _ => true).

Definition example_ready_scratch : ConvolutionLayer * World :=
  match ConvolutionLayer_Setup example_platform_scratch example_layer
          example_world with
  | Ok s => s
  | Err _ => (example_layer, example_world)
  end.


(** Shapes whose element count is [2 ^ 32]: an input of
    [(65536,65536,1,1)], and a [1x1] convolution from 65536 channels to
    65536 channels on a device of 10 MB. *)
Definition example_wide : Layer :=
  setInputDim (mkDataDim 65536 65536 1 1) (base example_fresh).

Definition example_wide_conv : ConvolutionLayer :=
  setConvParam (mkConvolutionParam 65536 0 0 1 1 1 1 0)
    (set_base (setInputDim (mkDataDim 1 65536 1 1) (base example_fresh))
              example_fresh).

Definition example_large_world : World :=
  mkWorld (mkDevice 10000000 ∅ 1) (mkDataManager 0 ∅) [].

Definition example_wide_setup : Layer * World :=
  match Layer_Setup example_platform example_wide example_world with
  | Ok s => s
  | Err _ => (example_wide, example_world)
  end.

Definition example_wide_conv_setup : ConvolutionLayer * World :=
  match ConvolutionLayer_Setup example_platform example_wide_conv
          example_large_world with
  | Ok s => s
  | Err _ => (example_wide_conv, example_large_world)
  end.

(** * Properties *)

(** ** Arithmetic on [int] *)

Lemma Int_wrap_fits z : Int.fits z -> Int.wrap z = z.
Proof.
  unfold Int.fits, Int.wrap, Int.min_signed, Int.max_signed. intros H.
  rewrite Z.mod_small; lia.
Qed.

Lemma Int_add_fits a b : Int.fits (a + b) -> Int.add a b = a + b.
Proof. apply Int_wrap_fits. Qed.

Lemma Int_sub_fits a b : Int.fits (a - b) -> Int.sub a b = a - b.
Proof. apply Int_wrap_fits. Qed.

Lemma Int_mul_fits a b : Int.fits (a * b) -> Int.mul a b = a * b.
Proof. apply Int_wrap_fits. Qed.

(** Truncation and floor agree on a non-negative dividend and a positive
    divisor. *)
Lemma quot_floor a b : 0 <= a -> 0 < b -> a ÷ b = a / b.
Proof. intros Ha Hb. apply Z.quot_div_nonneg; lia. Qed.

(** ** The data manager *)

Lemma CreateData_ok P size w :
  0 <= size * sizeof_T P <= dev_free (device w) ->
  CreateData P size w =
    Ok (next_chunk_id (data_manager w), world_after_create P size w).
Proof.
  intros [H0 H1]. unfold CreateData, device_malloc.
  destruct (Z.leb_spec 0 (size * sizeof_T P)); [|lia].
  destruct (Z.leb_spec (size * sizeof_T P) (dev_free (device w))); [|lia].
  reflexivity.
Qed.

Lemma GetData_live w id : live w id -> GetData id w = Ok id.
Proof. intros [d Hd]. unfold GetData. now rewrite Hd. Qed.

Lemma live_after_create P size w id :
  live w id -> live (world_after_create P size w) id.
Proof.
  unfold live, world_after_create. simpl. intros H.
  destruct (decide (next_chunk_id (data_manager w) = id)) as [->|Hne].
  - rewrite lookup_insert_eq. eauto.
  - now rewrite lookup_insert_ne.
Qed.

Lemma live_new P size w :
  live (world_after_create P size w) (next_chunk_id (data_manager w)).
Proof. unfold live, world_after_create. simpl. rewrite lookup_insert_eq. eauto. Qed.

Lemma next_after_create P size w :
  next_chunk_id (data_manager (world_after_create P size w)) =
  next_chunk_id (data_manager w) + 1.
Proof. reflexivity. Qed.

Lemma free_after_create P size w :
  dev_free (device (world_after_create P size w)) =
  dev_free (device w) - size * sizeof_T P.
Proof. reflexivity. Qed.

Lemma vec_at_lookup {A} (v : list A) i x :
  0 <= i -> v !! Z.to_nat i = Some x -> vec_at v i = Ok x.
Proof.
  intros Hi Hx. unfold vec_at.
  destruct (Z.ltb_spec i 0); [lia|]. now rewrite Hx.
Qed.

(** ** One allocation loop for both [Setup]s *)

Lemma evens_length k n : length (evens k n) = n.
Proof. revert k. induction n; intros k; simpl; auto. Qed.

Lemma alloc_body_ok P size i ps ids dps dids w x y :
  let k := next_chunk_id (data_manager w) in
  0 <= i ->
  (ids ++ [k]) !! Z.to_nat i = Some x ->
  (dids ++ [k + 1]) !! Z.to_nat i = Some y ->
  0 <= size * sizeof_T P ->
  2 * (size * sizeof_T P) <= dev_free (device w) ->
  (forall id, id ∈ ids -> live w id) ->
  (forall id, id ∈ dids -> live w id) ->
  alloc_body P size i ((ps, ids, dps, dids), w) =
    Ok ((ps ++ [x], ids ++ [k], dps ++ [y], dids ++ [k + 1]),
        world_after_create P size (world_after_create P size w)).
Proof.
  intros k Hi Hx Hy Hsz Hcap Hl Hdl. unfold alloc_body.
  rewrite CreateData_ok by lia. cbn [mbind Result_bind]. fold k.
  rewrite (vec_at_lookup _ _ x Hi Hx). cbn [mbind Result_bind].
  set (w1 := world_after_create P size w).
  assert (Hx1 : live w1 x).
  { apply list_elem_of_lookup_2 in Hx. apply elem_of_app in Hx as [Hx|Hx].
    - apply live_after_create; auto.
    - apply list_elem_of_singleton in Hx. subst x. apply live_new. }
  rewrite (GetData_live _ _ Hx1). cbn [mbind Result_bind].
  rewrite CreateData_ok by (unfold w1; rewrite free_after_create; lia).
  cbn [mbind Result_bind].
  replace (next_chunk_id (data_manager w1)) with (k + 1) by reflexivity.
  rewrite (vec_at_lookup _ _ y Hi Hy). cbn [mbind Result_bind].
  set (w2 := world_after_create P size w1).
  assert (Hy2 : live w2 y).
  { apply list_elem_of_lookup_2 in Hy. apply elem_of_app in Hy as [Hy|Hy].
    - do 2 apply live_after_create; auto.
    - apply list_elem_of_singleton in Hy. subst y. apply live_new. }
  rewrite (GetData_live _ _ Hy2). reflexivity.
Qed.

Lemma alloc_loop P size n : forall i ps ids dps dids w,
  0 <= i ->
  (Z.to_nat i <= length ids)%nat ->
  (Z.to_nat i <= length dids)%nat ->
  0 <= size * sizeof_T P ->
  2 * Z.of_nat n * (size * sizeof_T P) <= dev_free (device w) ->
  (forall id, id ∈ ids -> live w id) ->
  (forall id, id ∈ dids -> live w id) ->
  let k := next_chunk_id (data_manager w) in
  for_upto n i (alloc_body P size) ((ps, ids, dps, dids), w) =
    Ok ((ps ++ take n (drop (Z.to_nat i) (ids ++ evens k n)),
         ids ++ evens k n,
         dps ++ take n (drop (Z.to_nat i) (dids ++ evens (k + 1) n)),
         dids ++ evens (k + 1) n),
        after_creates P size (2 * n) w).
Proof.
  induction n as [|n IH]; intros i ps ids dps dids w Hi Hids Hdids Hsz Hcap Hl Hdl k.
  - simpl. rewrite !app_nil_r. reflexivity.
  - cbn [for_upto].
    destruct (lookup_lt_is_Some_2 (ids ++ [k]) (Z.to_nat i)) as [x Hx].
    { rewrite length_app. simpl. lia. }
    destruct (lookup_lt_is_Some_2 (dids ++ [k + 1]) (Z.to_nat i)) as [y Hy].
    { rewrite length_app. simpl. lia. }
    rewrite (alloc_body_ok P size i ps ids dps dids w x y) by (auto; lia).
    cbn [mbind Result_bind]. fold k.
    set (w1 := world_after_create P size w).
    set (w2 := world_after_create P size w1).
    rewrite IH.
    + replace (next_chunk_id (data_manager w2)) with (k + 2) by (simpl; lia).
      replace (Z.to_nat (i + 1)) with (S (Z.to_nat i)) by lia.
      replace (2 * S n)%nat with (S (S (2 * n))) by lia.
      cbn [after_creates evens]. fold w1 w2.
      replace (k + 2 + 1) with (k + 1 + 2) by lia.
      rewrite <- !(assoc_L (++)). simpl.
      assert (Hx' : (ids ++ k :: evens (k + 2) n) !! Z.to_nat i = Some x).
      { change (k :: evens (k + 2) n) with ([k] ++ evens (k + 2) n).
        rewrite (assoc_L (++) ids [k]). apply lookup_app_l_Some. exact Hx. }
      assert (Hy' : (dids ++ (k + 1) :: evens (k + 1 + 2) n) !! Z.to_nat i = Some y).
      { change ((k + 1) :: evens (k + 1 + 2) n) with ([k + 1] ++ evens (k + 1 + 2) n).
        rewrite (assoc_L (++) dids [k + 1]). apply lookup_app_l_Some. exact Hy. }
      rewrite (drop_S _ _ _ Hx'), (drop_S _ _ _ Hy'). reflexivity.
    + lia.
    + rewrite length_app. simpl. lia.
    + rewrite length_app. simpl. lia.
    + lia.
    + unfold w2, w1. rewrite !free_after_create. lia.
    + intros id Hid. apply elem_of_app in Hid as [Hid|Hid].
      * do 2 apply live_after_create; auto.
      * apply list_elem_of_singleton in Hid. subst id.
        apply live_after_create, live_new.
    + intros id Hid. apply elem_of_app in Hid as [Hid|Hid].
      * do 2 apply live_after_create; auto.
      * apply list_elem_of_singleton in Hid. subst id. apply live_new.
Qed.

(** ** The loops through the four-vector view *)

Lemma set_bottom_quad_id l : set_bottom_quad (bottom_quad l) l = l.
Proof. now destruct l. Qed.

Lemma Layer_Setup_body_quad P size i l w :
  Layer_Setup_body P size i (l, w) =
  '(q, w') ← alloc_body P size i (bottom_quad l, w); Ok (set_bottom_quad q l, w').
Proof.
  unfold Layer_Setup_body, alloc_body, bottom_quad.
  destruct (CreateData P size w) as [[id w1]|e]; [|reflexivity].
  cbn [mbind Result_bind bottom_chunk_ids_ push_bottom_chunk_ids_].
  destruct (vec_at _ i) as [cid|e]; [|reflexivity]. cbn [mbind Result_bind].
  destruct (GetData cid w1) as [p|e]; [|reflexivity]. cbn [mbind Result_bind].
  destruct (CreateData P size w1) as [[id2 w2]|e]; [|reflexivity].
  cbn [mbind Result_bind bottom_diff_chunk_ids_ push_bottom_diff_chunk_ids_ push_bottoms_].
  destruct (vec_at _ i) as [cid2|e]; [|reflexivity]. cbn [mbind Result_bind].
  destruct (GetData cid2 w2) as [p2|e]; reflexivity.
Qed.

Lemma Layer_Setup_loop_quad P size n : forall i l w,
  for_upto n i (Layer_Setup_body P size) (l, w) =
  '(q, w') ← for_upto n i (alloc_body P size) (bottom_quad l, w);
  Ok (set_bottom_quad q l, w').
Proof.
  induction n as [|n IH]; intros i l w.
  - cbn [for_upto mbind Result_bind]. now rewrite set_bottom_quad_id.
  - cbn [for_upto]. rewrite Layer_Setup_body_quad.
    destruct (alloc_body P size i (bottom_quad l, w)) as [[q1 w1]|e]; [|reflexivity].
    cbn [mbind Result_bind]. rewrite IH.
    replace (bottom_quad (set_bottom_quad q1 l)) with q1
      by now destruct q1 as [[[? ?] ?] ?].
    destruct (for_upto n (i + 1) (alloc_body P size) (q1, w1)) as [[q2 w2]|e];
      [|reflexivity].
    cbn [mbind Result_bind].
    now destruct q1 as [[[? ?] ?] ?], q2 as [[[? ?] ?] ?].
Qed.

Lemma set_top_quad_id cl : set_top_quad (top_quad cl) cl = cl.
Proof. now destruct cl. Qed.

Lemma ConvolutionLayer_Setup_body_quad P size i cl w :
  ConvolutionLayer_Setup_body P size i (cl, w) =
  '(q, w') ← alloc_body P size i (top_quad cl, w); Ok (set_top_quad q cl, w').
Proof.
  unfold ConvolutionLayer_Setup_body, alloc_body, top_quad.
  destruct (CreateData P size w) as [[id w1]|e]; [|reflexivity].
  cbn [mbind Result_bind top_chunk_ids_ push_top_chunk_ids_ set_tops].
  destruct (vec_at _ i) as [cid|e]; [|reflexivity]. cbn [mbind Result_bind].
  destruct (GetData cid w1) as [p|e]; [|reflexivity]. cbn [mbind Result_bind].
  destruct (CreateData P size w1) as [[id2 w2]|e]; [|reflexivity].
  cbn [mbind Result_bind top_diff_chunk_ids_ push_top_diff_chunk_ids_ push_tops_ set_tops].
  destruct (vec_at _ i) as [cid2|e]; [|reflexivity]. cbn [mbind Result_bind].
  destruct (GetData cid2 w2) as [p2|e]; reflexivity.
Qed.

Lemma ConvolutionLayer_Setup_loop_quad P size n : forall i cl w,
  for_upto n i (ConvolutionLayer_Setup_body P size) (cl, w) =
  '(q, w') ← for_upto n i (alloc_body P size) (top_quad cl, w);
  Ok (set_top_quad q cl, w').
Proof.
  induction n as [|n IH]; intros i cl w.
  - cbn [for_upto mbind Result_bind]. now rewrite set_top_quad_id.
  - cbn [for_upto]. rewrite ConvolutionLayer_Setup_body_quad.
    destruct (alloc_body P size i (top_quad cl, w)) as [[q1 w1]|e]; [|reflexivity].
    cbn [mbind Result_bind]. rewrite IH.
    replace (top_quad (set_top_quad q1 cl)) with q1
      by now destruct q1 as [[[? ?] ?] ?].
    destruct (for_upto n (i + 1) (alloc_body P size) (q1, w1)) as [[q2 w2]|e];
      [|reflexivity].
    cbn [mbind Result_bind].
    now destruct q1 as [[[? ?] ?] ?], q2 as [[[? ?] ?] ?].
Qed.

(** ** Runs of [CreateData] calls *)

Lemma after_creates_next P size m : forall w,
  next_chunk_id (data_manager (after_creates P size m w)) =
  next_chunk_id (data_manager w) + Z.of_nat m.
Proof.
  induction m as [|m IH]; intros w; cbn [after_creates]; [lia|].
  rewrite IH, next_after_create. lia.
Qed.

Lemma after_creates_free P size m : forall w,
  dev_free (device (after_creates P size m w)) =
  dev_free (device w) - Z.of_nat m * (size * sizeof_T P).
Proof.
  induction m as [|m IH]; intros w; cbn [after_creates]; [lia|].
  rewrite IH, free_after_create. lia.
Qed.

Lemma after_creates_calls P size m : forall w,
  calls (after_creates P size m w) =
  calls w ++ create_calls size (next_chunk_id (data_manager w)) m.
Proof.
  induction m as [|m IH]; intros w; cbn [after_creates create_calls].
  - now rewrite app_nil_r.
  - rewrite IH. cbn [world_after_create calls data_manager next_chunk_id].
    now rewrite <- (assoc_L (++)).
Qed.

Lemma after_creates_live P size m : forall w id,
  live w id -> live (after_creates P size m w) id.
Proof.
  induction m as [|m IH]; intros w id H; cbn [after_creates]; [exact H|].
  apply IH, live_after_create, H.
Qed.

(** A chunk below the counter is not touched by later creations. *)
Lemma after_creates_old P size m : forall w id,
  id < next_chunk_id (data_manager w) ->
  chunks (data_manager (after_creates P size m w)) !! id =
  chunks (data_manager w) !! id.
Proof.
  induction m as [|m IH]; intros w id H; cbn [after_creates]; [reflexivity|].
  rewrite IH by (rewrite next_after_create; lia).
  cbn [world_after_create data_manager chunks]. apply lookup_insert_ne. lia.
Qed.

(** Each of the [m] new chunks has the requested size. *)
Lemma after_creates_new P size m : forall w id,
  next_chunk_id (data_manager w) <= id < next_chunk_id (data_manager w) + Z.of_nat m ->
  data_size <$> chunks (data_manager (after_creates P size m w)) !! id = Some size.
Proof.
  induction m as [|m IH]; intros w id H; cbn [after_creates]; [lia|].
  destruct (decide (id = next_chunk_id (data_manager w))) as [->|Hne].
  - rewrite after_creates_old by (rewrite next_after_create; lia).
    cbn [world_after_create data_manager chunks]. now rewrite lookup_insert_eq.
  - apply IH. rewrite next_after_create. lia.
Qed.

Lemma after_creates_add P size m1 m2 w :
  after_creates P size (m1 + m2) w =
  after_creates P size m2 (after_creates P size m1 w).
Proof.
  revert w. induction m1 as [|m1 IH]; intros w; [reflexivity|].
  cbn [Nat.add after_creates]. apply IH.
Qed.

Lemma evens_elem k n id :
  id ∈ evens k n <-> exists j, (j < n)%nat /\ id = k + 2 * Z.of_nat j.
Proof.
  revert k. induction n as [|n IH]; intros k; cbn [evens].
  - split; [intros H; inversion H | intros (j & Hj & _); lia].
  - rewrite elem_of_cons, IH. split.
    + intros [->|(j & Hj & ->)]; [exists 0%nat | exists (S j)]; split; lia.
    + intros ([|j] & Hj & ->); [left; lia | right; exists j; split; lia].
Qed.

Lemma evens_add k n1 n2 :
  evens k (n1 + n2) = evens k n1 ++ evens (k + 2 * Z.of_nat n1) n2.
Proof.
  revert k. induction n1 as [|n1 IH]; intros k.
  - simpl. now rewrite Z.add_0_r.
  - cbn [Nat.add evens app]. rewrite IH. do 3 f_equal. lia.
Qed.

Lemma evens_NoDup k n : NoDup (evens k n).
Proof.
  revert k. induction n as [|n IH]; intros k; cbn [evens]; constructor; auto.
  rewrite evens_elem. intros (j & _ & Hj). lia.
Qed.

(** ** [Layer::Setup] *)

Lemma after_creates_new_live P size m w id :
  next_chunk_id (data_manager w) <= id < next_chunk_id (data_manager w) + Z.of_nat m ->
  live (after_creates P size m w) id.
Proof.
  intros H. apply (after_creates_new P size) in H. unfold live.
  destruct (chunks _ !! id); [eauto | discriminate].
Qed.

Lemma dim_size_exact d :
  0 < n_ d -> 0 < c_ d -> 0 < h_ d -> 0 < w_ d ->
  n_ d * c_ d * h_ d * w_ d <= Int.max_signed ->
  dim_size d = n_ d * c_ d * h_ d * w_ d.
Proof.
  intros Hn Hc Hh Hw Hmax. unfold dim_size.
  assert (0 < n_ d * c_ d) by lia.
  assert (0 < n_ d * c_ d * h_ d) by lia.
  assert (n_ d * c_ d * h_ d <= n_ d * c_ d * h_ d * w_ d) by nia.
  assert (n_ d * c_ d <= n_ d * c_ d * h_ d) by nia.
  unfold Int.max_signed in Hmax.
  rewrite (Int_mul_fits (n_ d) (c_ d))
    by (unfold Int.fits, Int.min_signed, Int.max_signed; lia).
  rewrite (Int_mul_fits (n_ d * c_ d) (h_ d))
    by (unfold Int.fits, Int.min_signed, Int.max_signed; lia).
  rewrite Int_mul_fits
    by (unfold Int.fits, Int.min_signed, Int.max_signed; lia).
  reflexivity.
Qed.

Lemma standalone_positive d :
  0 < n_ d -> 0 < c_ d -> 0 < h_ d -> 0 < w_ d -> standalone d = true.
Proof.
  intros. unfold standalone.
  rewrite !andb_true_iff, !negb_true_iff, !Z.eqb_neq. lia.
Qed.

Lemma standalone_zero d :
  n_ d = 0 \/ c_ d = 0 \/ h_ d = 0 \/ w_ d = 0 -> standalone d = false.
Proof.
  intros H. unfold standalone.
  rewrite !andb_false_iff, !negb_false_iff, !Z.eqb_eq. tauto.
Qed.

(** The result of the standalone branch, in full. *)
Lemma Layer_Setup_standalone_eq P l w :
  let n := Z.to_nat (num_inputs_ l) in
  let size := dim_size (input_dim_ l) in
  let k := next_chunk_id (data_manager w) in
  standalone (input_dim_ l) = true ->
  0 <= size * sizeof_T P ->
  2 * Z.of_nat n * (size * sizeof_T P) <= dev_free (device w) ->
  handles_live w (bottom_chunk_ids_ l) ->
  handles_live w (bottom_diff_chunk_ids_ l) ->
  Layer_Setup P l w =
    Ok (set_bottom_quad
          (bottoms_ l ++ take n (bottom_chunk_ids_ l ++ evens k n),
           bottom_chunk_ids_ l ++ evens k n,
           bottom_diffs_ l ++ take n (bottom_diff_chunk_ids_ l ++ evens (k + 1) n),
           bottom_diff_chunk_ids_ l ++ evens (k + 1) n)
          (set_bottom_desc_
             (DataTensor_Set (n_ (input_dim_ l)) (c_ (input_dim_ l))
                             (h_ (input_dim_ l)) (w_ (input_dim_ l))) l),
        after_creates P size (2 * n) w).
Proof.
  intros n size k Hst Hsz Hcap Hl Hdl. unfold Layer_Setup. rewrite Hst.
  unfold for_int. rewrite Layer_Setup_loop_quad.
  unfold bottom_quad at 1.
  cbn [bottoms_ bottom_chunk_ids_ bottom_diffs_ bottom_diff_chunk_ids_ set_bottom_desc_].
  fold size n.
  rewrite alloc_loop; try assumption; try (simpl; lia).
  reflexivity.
Qed.

(** C4. In composed mode, with the four extents of the input all zero, the
    base [Setup] returns normally and leaves the layer and the world as
    they were: no buffer is created, no call is made. *)
Theorem Layer_Setup_composed_noop (P : Platform) (l : Layer) (w : World) :
  n_ (input_dim_ l) = 0 -> c_ (input_dim_ l) = 0 ->
  h_ (input_dim_ l) = 0 -> w_ (input_dim_ l) = 0 ->
  Layer_Setup P l w = Ok (l, w).
Proof.
  intros Hn _ _ _. unfold Layer_Setup.
  rewrite standalone_zero by auto. reflexivity.
Qed.

(** C5, as the code has it.  In standalone mode, when
    count*channels*height*width is within the range of [int], the base
    [Setup] takes that product as the buffer size and makes, for each of
    [num_inputs_] inputs (1 after construction), one [CreateData] call for
    the input and one for its gradient, both of that size, recording the
    two handles.  (Beyond the range the size is the wrapped product.) *)
Theorem Layer_Setup_standalone_allocates (P : Platform) (l : Layer) (w : World) :
  let d := input_dim_ l in
  let size := n_ d * c_ d * h_ d * w_ d in
  let k := next_chunk_id (data_manager w) in
  let n := Z.to_nat (num_inputs_ l) in
  0 < n_ d -> 0 < c_ d -> 0 < h_ d -> 0 < w_ d ->
  size <= Int.max_signed ->
  0 <= num_inputs_ l ->
  0 <= sizeof_T P ->
  2 * num_inputs_ l * (size * sizeof_T P) <= dev_free (device w) ->
  handles_live w (bottom_chunk_ids_ l) ->
  handles_live w (bottom_diff_chunk_ids_ l) ->
  exists l' w',
    Layer_Setup P l w = Ok (l', w') /\
    bottom_desc_ l' = Some d /\
    calls w' = calls w ++ create_calls size k (2 * n) /\
    bottom_chunk_ids_ l' = bottom_chunk_ids_ l ++ evens k n /\
    bottom_diff_chunk_ids_ l' = bottom_diff_chunk_ids_ l ++ evens (k + 1) n /\
    (forall id, id ∈ evens k n ++ evens (k + 1) n ->
       data_size <$> chunks (data_manager w') !! id = Some size) /\
    length (bottoms_ l') = (length (bottoms_ l) + n)%nat /\
    length (bottom_diffs_ l') = (length (bottom_diffs_ l) + n)%nat /\
    (bottom_chunk_ids_ l = [] -> bottoms_ l' = bottoms_ l ++ evens k n) /\
    (bottom_diff_chunk_ids_ l = [] ->
       bottom_diffs_ l' = bottom_diffs_ l ++ evens (k + 1) n) /\
    num_inputs_ (Layer_new (p_handle_ l)) = 1.
Proof.
  intros d size k n Hn Hc Hh Hw Hmax Hni Hsz Hcap Hl Hdl.
  assert (Hsize : dim_size d = size) by now apply dim_size_exact.
  assert (0 < size) by (unfold size; lia).
  eexists _, _. split.
  { apply Layer_Setup_standalone_eq; try assumption.
    - now apply standalone_positive.
    - fold d. rewrite Hsize. lia.
    - fold d n. rewrite Hsize. unfold n. rewrite Z2Nat.id by lia. lia. }
  fold d n. rewrite Hsize.
  cbn [set_bottom_quad bottom_desc_ set_bottom_desc_ bottom_chunk_ids_
       bottom_diff_chunk_ids_ bottoms_ bottom_diffs_].
  repeat split.
  - unfold DataTensor_Set. now destruct d.
  - apply after_creates_calls.
  - intros id Hid. apply after_creates_new. fold k.
    apply elem_of_app in Hid as [Hid|Hid];
      apply evens_elem in Hid as (j & Hj & ->); lia.
  - rewrite length_app, length_take, length_app, evens_length. lia.
  - rewrite length_app, length_take, length_app, evens_length. lia.
  - intros ->. cbn [app]. rewrite take_ge by (rewrite evens_length; lia).
    reflexivity.
  - intros ->. cbn [app]. rewrite take_ge by (rewrite evens_length; lia).
    reflexivity.
Qed.

(** C8. [Setup] is not idempotent.  On a layer that holds no buffer yet, a
    second call in standalone mode goes through the allocation loop again:
    nothing guards it, the registry has created four buffers per input
    instead of two, and the layer holds two input handles and two gradient
    handles per input, all distinct and all live.  (The pointers of the
    second round are read at the indices of the first and repeat them.) *)
Theorem Layer_Setup_twice_allocates_twice (P : Platform) (l : Layer) (w : World) :
  let d := input_dim_ l in
  let size := n_ d * c_ d * h_ d * w_ d in
  let k := next_chunk_id (data_manager w) in
  let n := Z.to_nat (num_inputs_ l) in
  0 < n_ d -> 0 < c_ d -> 0 < h_ d -> 0 < w_ d ->
  size <= Int.max_signed ->
  0 <= num_inputs_ l ->
  0 <= sizeof_T P ->
  4 * num_inputs_ l * (size * sizeof_T P) <= dev_free (device w) ->
  bottoms_ l = [] -> bottom_chunk_ids_ l = [] ->
  bottom_diffs_ l = [] -> bottom_diff_chunk_ids_ l = [] ->
  exists l1 w1 l2 w2,
    Layer_Setup P l w = Ok (l1, w1) /\
    Layer_Setup P l1 w1 = Ok (l2, w2) /\
    bottom_chunk_ids_ l1 = evens k n /\
    bottom_diff_chunk_ids_ l1 = evens (k + 1) n /\
    calls w1 = calls w ++ create_calls size k (2 * n) /\
    bottom_chunk_ids_ l2 = evens k (2 * n) /\
    bottom_diff_chunk_ids_ l2 = evens (k + 1) (2 * n) /\
    calls w2 = calls w ++ create_calls size k (4 * n) /\
    length (bottom_chunk_ids_ l2) = (2 * n)%nat /\
    length (bottom_diff_chunk_ids_ l2) = (2 * n)%nat /\
    length (bottoms_ l2) = (2 * n)%nat /\
    length (bottom_diffs_ l2) = (2 * n)%nat /\
    NoDup (bottom_chunk_ids_ l2 ++ bottom_diff_chunk_ids_ l2) /\
    handles_live w2 (bottom_chunk_ids_ l2 ++ bottom_diff_chunk_ids_ l2) /\
    bottoms_ l2 = evens k n ++ evens k n /\
    bottom_diffs_ l2 = evens (k + 1) n ++ evens (k + 1) n.
Proof.
  intros d size k n Hn Hc Hh Hw Hmax Hni Hsz Hcap Hb Hids Hd Hdids.
  assert (Hsize : dim_size d = size) by now apply dim_size_exact.
  assert (Hst : standalone d = true) by now apply standalone_positive.
  assert (0 < size) by (unfold size; lia).
  assert (Hn' : Z.of_nat n = num_inputs_ l) by (unfold n; lia).
  set (w1 := after_creates P size (2 * n) w).
  assert (Hk1 : next_chunk_id (data_manager w1) = k + 2 * Z.of_nat n).
  { unfold w1. rewrite after_creates_next. fold k. lia. }
  assert (H1 : Layer_Setup P l w =
    Ok (set_bottom_quad (evens k n, evens k n, evens (k + 1) n, evens (k + 1) n)
          (set_bottom_desc_ (DataTensor_Set (n_ d) (c_ d) (h_ d) (w_ d)) l), w1)).
  { rewrite Layer_Setup_standalone_eq; fold d n k; rewrite ?Hsize;
      try assumption; try lia.
    - rewrite Hb, Hids, Hd, Hdids. cbn [app].
      rewrite !take_ge by (rewrite evens_length; lia). reflexivity.
    - rewrite Hids. intros id Hid. inversion Hid.
    - rewrite Hdids. intros id Hid. inversion Hid. }
  set (l1 := set_bottom_quad _ _) in H1.
  assert (Hlive1 : forall id, k <= id < k + 2 * Z.of_nat n -> live w1 id).
  { intros id Hid. apply after_creates_new_live. fold k. lia. }
  assert (H2 : Layer_Setup P l1 w1 =
    Ok (set_bottom_quad
          (evens k n ++ evens k n, evens k (2 * n),
           evens (k + 1) n ++ evens (k + 1) n, evens (k + 1) (2 * n))
          (set_bottom_desc_ (DataTensor_Set (n_ d) (c_ d) (h_ d) (w_ d)) l),
        after_creates P size (4 * n) w)).
  { rewrite Layer_Setup_standalone_eq.
    - unfold l1.
      cbn [set_bottom_quad set_bottom_desc_ num_inputs_ input_dim_ bottoms_
           bottom_chunk_ids_ bottom_diffs_ bottom_diff_chunk_ids_].
      fold d n. rewrite Hsize, Hk1.
      rewrite !take_app_length' by now rewrite evens_length.
      replace (2 * n)%nat with (n + n)%nat by lia.
      rewrite !evens_add.
      replace (k + 2 * Z.of_nat n + 1) with (k + 1 + 2 * Z.of_nat n) by lia.
      unfold w1. replace (2 * n)%nat with (n + n)%nat by lia.
      rewrite <- after_creates_add.
      replace (n + n + (n + n))%nat with (4 * n)%nat by lia.
      reflexivity.
    - exact Hst.
    - unfold l1. cbn [set_bottom_quad set_bottom_desc_ input_dim_].
      fold d. rewrite Hsize. lia.
    - unfold l1. cbn [set_bottom_quad set_bottom_desc_ input_dim_ num_inputs_].
      fold d n. rewrite Hsize. unfold w1. rewrite after_creates_free. lia.
    - intros id Hid. apply evens_elem in Hid as (j & Hj & ->).
      apply Hlive1. lia.
    - intros id Hid. apply evens_elem in Hid as (j & Hj & ->).
      apply Hlive1. lia. }
  eexists _, _, _, _. split; [exact H1|]. split; [exact H2|].
  unfold l1.
  cbn [set_bottom_quad bottoms_ bottom_chunk_ids_ bottom_diffs_
       bottom_diff_chunk_ids_].
  repeat split.
  - unfold w1. apply after_creates_calls.
  - apply after_creates_calls.
  - apply evens_length.
  - apply evens_length.
  - rewrite length_app, evens_length. lia.
  - rewrite length_app, evens_length. lia.
  - apply NoDup_app. split; [apply evens_NoDup|]. split; [|apply evens_NoDup].
    intros id Hid Hid'. apply evens_elem in Hid as (j & _ & ->).
    apply evens_elem in Hid' as (j' & _ & Hj'). lia.
  - intros id Hid. apply after_creates_new_live. fold k.
    apply elem_of_app in Hid as [Hid|Hid];
      apply evens_elem in Hid as (j & Hj & ->); lia.
Qed.

(** C10. [setLayerType] changes nothing: whatever [t], the layer after the
    call is the layer before it, and [getLayerType] answers as before. *)
Theorem setLayerType_keeps_type (t : LayerType) (l : Layer) :
  getLayerType (setLayerType t l) = getLayerType l /\ setLayerType t l = l.
Proof. split; reflexivity. Qed.

(** C3, as the code has it.  No layer keeps a readiness state and no call
    reports NotReady.  The two propagation calls of the base class and
    [BackwardPropagation] of the convolution layer are empty: they return
    normally in every state, before [Setup] as well, and change nothing.
    [ForwardPropagation] of a convolution layer that was only constructed
    reads the unassigned [weights_] pointer. *)
Theorem propagation_has_no_ready_check
    (P : Platform) (l : Layer) (cl : ConvolutionLayer) (w : World)
    (p_handle : Z) (conv_param : ConvolutionParam) :
  Layer_ForwardPropagation l w = Ok (l, w) /\
  Layer_BackwardPropagation l w = Ok (l, w) /\
  ConvolutionLayer_BackwardPropagation cl w = Ok (cl, w) /\
  ConvolutionLayer_ForwardPropagation P
    (ConvolutionLayer_new p_handle conv_param) w = Err UndefinedBehaviour.
Proof. repeat split. Qed.

(** ** [ConvolutionLayer::ComputeOutputDim] *)

Lemma Int_div_defined a b :
  div_defined a b -> Int.div a b = Some (Int.quot a b).
Proof.
  intros [Hb Hm]. unfold Int.div.
  destruct (Z.eqb_spec b 0) as [|_]; [contradiction|].
  destruct (Z.eqb_spec a Int.min_signed) as [Ha|_]; [|reflexivity].
  destruct (Z.eqb_spec b (-1)) as [Hb1|_]; [|reflexivity].
  exfalso. now apply Hm.
Qed.

Lemma Int_div_inv a b q : Int.div a b = Some q -> div_defined a b.
Proof.
  unfold Int.div, div_defined.
  destruct (Z.eqb_spec b 0) as [|Hb]; [discriminate|].
  destruct (Z.eqb_spec a Int.min_signed) as [Ha|Ha];
    destruct (Z.eqb_spec b (-1)) as [Hb1|Hb1]; cbn [orb andb];
    try discriminate; intros _; split; auto; intros; congruence.
Qed.

Lemma Int_div_zero a : Int.div a 0 = None.
Proof. reflexivity. Qed.

(** Where the quotient fits, the division is defined. *)
Lemma extent_fits_defined i pad k s :
  s <> 0 -> extent_fits i pad k s -> div_defined (conv_dividend i pad k) s.
Proof.
  intros Hs (H1 & H2 & H3 & H4 & _). unfold conv_dividend.
  rewrite (Int_mul_fits 2 pad) by exact H1.
  rewrite (Int_add_fits i) by exact H2.
  rewrite Int_sub_fits by exact H3.
  split; [exact Hs|]. intros Hmin ->. rewrite Hmin in H4.
  destruct H4 as [_ H4]. vm_compute in H4. now apply H4.
Qed.

Lemma ComputeOutputDim_ok cl :
  extents_defined cl ->
  ComputeOutputDim cl = Ok (set_output_dim_ (out_dim cl) cl).
Proof.
  intros [Hh Hw]. unfold conv_dividend in Hh, Hw. unfold ComputeOutputDim.
  rewrite (Int_div_defined _ _ Hh), (Int_div_defined _ _ Hw).
  cbn [from_option mbind Result_bind].
  unfold out_dim, conv_extent. reflexivity.
Qed.

Lemma conv_extent_exact i pad k s :
  extent_fits i pad k s -> conv_extent i pad k s = (i + 2 * pad - k) ÷ s + 1.
Proof.
  intros (H1 & H2 & H3 & H4 & H5). unfold conv_extent, Int.quot.
  rewrite (Int_mul_fits 2 pad) by exact H1.
  rewrite (Int_add_fits i) by exact H2.
  rewrite Int_sub_fits by exact H3.
  rewrite (Int_wrap_fits _ H4).
  now rewrite Int_add_fits.
Qed.

(** C1, as the code has it.  With strides other than zero and no
    intermediate value outside the range of [int], [ComputeOutputDim]
    gives outN = inN, outC = output_num_, and for each spatial extent the
    quotient of (in + 2*pad - kernel) by the stride, truncated toward zero,
    plus one.  Where the dividend is not negative and the stride is
    positive this is the floor formula. *)
Theorem ComputeOutputDim_extents (cl : ConvolutionLayer) :
  let i := input_dim_ (base cl) in
  let p := conv_param_ cl in
  let numh := h_ i + 2 * pad_h_ p - kernel_size_h_ p in
  let numw := w_ i + 2 * pad_w_ p - kernel_size_w_ p in
  stride_u_ p <> 0 -> stride_v_ p <> 0 ->
  extent_fits (h_ i) (pad_h_ p) (kernel_size_h_ p) (stride_u_ p) ->
  extent_fits (w_ i) (pad_w_ p) (kernel_size_w_ p) (stride_v_ p) ->
  exists cl',
    ComputeOutputDim cl = Ok cl' /\
    n_ (output_dim_ cl') = n_ i /\
    c_ (output_dim_ cl') = output_num_ p /\
    h_ (output_dim_ cl') = numh ÷ stride_u_ p + 1 /\
    w_ (output_dim_ cl') = numw ÷ stride_v_ p + 1 /\
    (0 <= numh -> 0 < stride_u_ p ->
       h_ (output_dim_ cl') = numh / stride_u_ p + 1) /\
    (0 <= numw -> 0 < stride_v_ p ->
       w_ (output_dim_ cl') = numw / stride_v_ p + 1).
Proof.
  intros i p numh numw Hu Hv Hfh Hfw.
  exists (set_output_dim_ (out_dim cl) cl).
  split; [apply ComputeOutputDim_ok; split; now apply extent_fits_defined|].
  cbn [set_output_dim_ output_dim_ out_dim n_ c_ h_ w_]. fold i p.
  rewrite (conv_extent_exact _ _ _ _ Hfh), (conv_extent_exact _ _ _ _ Hfw).
  fold numh numw. repeat split.
  - intros H0 Hs. now rewrite quot_floor.
  - intros H0 Hs. now rewrite quot_floor.
Qed.

(** ** [ConvolutionLayer::Setup] *)

Lemma bind_Ok {A B} (a : A) (k : A -> Result B) : mbind k (Ok a) = k a.
Proof. reflexivity. Qed.

Ltac run_ok := rewrite bind_Ok; cbv beta iota.

Lemma ConvolutionLayer_Setup_data_eq P cl w :
  let m := Z.to_nat (num_outputs_ cl) in
  let o := out_dim cl in
  let tsize := dim_size o in
  let wsize := weights_size_of cl in
  let k := next_chunk_id (data_manager w) in
  let kw := k + 2 * Z.of_nat m in
  extents_defined cl ->
  0 <= tsize * sizeof_T P ->
  0 <= wsize * sizeof_T P ->
  2 * Z.of_nat m * (tsize * sizeof_T P) + 2 * (wsize * sizeof_T P)
    <= dev_free (device w) ->
  handles_live w (top_chunk_ids_ cl) ->
  handles_live w (top_diff_chunk_ids_ cl) ->
  ConvolutionLayer_Setup_data P cl w =
    Ok (set_weights (Some kw) (Some kw) (Some (kw + 1)) (Some (kw + 1))
          (set_top_quad
             (tops_ cl ++ take m (top_chunk_ids_ cl ++ evens k m),
              top_chunk_ids_ cl ++ evens k m,
              top_diffs_ cl ++ take m (top_diff_chunk_ids_ cl ++ evens (k + 1) m),
              top_diff_chunk_ids_ cl ++ evens (k + 1) m)
             (set_top_desc_ (DataTensor_Set (n_ o) (c_ o) (h_ o) (w_ o))
                            (set_output_dim_ o cl))),
        after_creates P wsize 2 (after_creates P tsize (2 * m) w)).
Proof.
  intros m o tsize wsize k kw Hdef Hts Hws Hcap Hl Hdl.
  unfold ConvolutionLayer_Setup_data.
  rewrite ComputeOutputDim_ok by assumption. run_ok.
  unfold for_int. rewrite ConvolutionLayer_Setup_loop_quad.
  unfold top_quad at 1.
  cbn [set_top_desc_ set_output_dim_ tops_ top_chunk_ids_ top_diffs_
       top_diff_chunk_ids_ output_dim_ num_outputs_].
  fold o tsize m.
  rewrite alloc_loop;
    [|lia|cbn; lia|cbn; lia|assumption|lia|assumption|assumption].
  run_ok. run_ok. fold k.
  set (w2 := after_creates P tsize (2 * m) w).
  assert (Hk2 : next_chunk_id (data_manager w2) = kw).
  { unfold w2. rewrite after_creates_next. fold k. unfold kw. lia. }
  assert (Hf2 : dev_free (device w2) =
                dev_free (device w) - Z.of_nat (2 * m) * (tsize * sizeof_T P)).
  { unfold w2. now rewrite after_creates_free. }
  match goal with |- context [CreateData P ?s w2] =>
    change s with wsize end.
  rewrite CreateData_ok by lia. run_ok.
  rewrite Hk2.
  rewrite GetData_live by (rewrite <- Hk2; apply live_new).
  run_ok.
  match goal with |- context [CreateData P ?s (world_after_create P wsize w2)] =>
    change s with wsize end.
  rewrite CreateData_ok by (rewrite free_after_create; lia).
  run_ok. rewrite next_after_create, Hk2.
  rewrite GetData_live
    by (replace (kw + 1) with
          (next_chunk_id (data_manager (world_after_create P wsize w2)))
          by (rewrite next_after_create; lia);
        apply live_new).
  run_ok. reflexivity.
Qed.

Lemma cudaMalloc_ok bytes w :
  0 <= bytes <= dev_free (device w) ->
  cudaMalloc bytes w =
    Ok (dev_next (device w),
        mkWorld (device_after_malloc bytes (device w)) (data_manager w)
                (calls w ++ [CudaMallocCall bytes (dev_next (device w))])).
Proof.
  intros [H0 H1]. unfold cudaMalloc, device_malloc.
  destruct (Z.leb_spec 0 bytes); [|lia].
  destruct (Z.leb_spec bytes (dev_free (device w))); [|lia].
  reflexivity.
Qed.

(** The world the tail of [Setup] leaves. *)
Lemma ConvolutionLayer_Setup_algo_eq P cl w algo size :
  cudnnGetConvolutionForwardAlgorithm P (fwd_algo_query cl) = Some algo ->
  cudnnGetConvolutionForwardWorkspaceSize P (fwd_workspace_query cl algo)
    = Some size ->
  0 <= size <= dev_free (device w) ->
  ConvolutionLayer_Setup_algo P cl w =
    Ok (set_fwd (Some algo) (Some size) (Some (dev_next (device w))) cl,
        mkWorld (device_after_malloc size (device w)) (data_manager w)
                (calls w ++ [GetForwardAlgorithmCall (fwd_algo_query cl);
                             GetForwardWorkspaceSizeCall (fwd_workspace_query cl algo);
                             CudaMallocCall size (dev_next (device w))])).
Proof.
  intros Ha Hs Hcap. unfold ConvolutionLayer_Setup_algo.
  rewrite Ha. cbn [from_option mbind Result_bind].
  change (fwd_workspace_query (set_fwd _ _ _ cl) algo)
    with (fwd_workspace_query cl algo).
  rewrite Hs. cbn [from_option mbind Result_bind].
  rewrite cudaMalloc_ok by (simpl; lia).
  cbn [mbind Result_bind log device data_manager calls].
  rewrite <- !(assoc_L (++)). reflexivity.
Qed.

(** Read backwards: a [Setup] that returned went through the three calls. *)
Lemma ConvolutionLayer_Setup_algo_inv P cl w cl' w' :
  ConvolutionLayer_Setup_algo P cl w = Ok (cl', w') ->
  exists algo size,
    cudnnGetConvolutionForwardAlgorithm P (fwd_algo_query cl) = Some algo /\
    cudnnGetConvolutionForwardWorkspaceSize P (fwd_workspace_query cl algo)
      = Some size /\
    0 <= size <= dev_free (device w) /\
    cl' = set_fwd (Some algo) (Some size) (Some (dev_next (device w))) cl /\
    w' = mkWorld (device_after_malloc size (device w)) (data_manager w)
                 (calls w ++ [GetForwardAlgorithmCall (fwd_algo_query cl);
                              GetForwardWorkspaceSizeCall (fwd_workspace_query cl algo);
                              CudaMallocCall size (dev_next (device w))]).
Proof.
  intros H.
  destruct (cudnnGetConvolutionForwardAlgorithm P (fwd_algo_query cl))
    as [algo|] eqn:Ha;
    [|unfold ConvolutionLayer_Setup_algo in H; rewrite Ha in H; discriminate].
  destruct (cudnnGetConvolutionForwardWorkspaceSize P (fwd_workspace_query cl algo))
    as [size|] eqn:Hs.
  2:{ unfold ConvolutionLayer_Setup_algo in H. rewrite Ha in H.
      cbn [from_option mbind Result_bind] in H.
      change (fwd_workspace_query (set_fwd _ _ _ cl) algo)
        with (fwd_workspace_query cl algo) in H.
      rewrite Hs in H. discriminate. }
  destruct (decide (0 <= size <= dev_free (device w))) as [Hcap|Hcap].
  - rewrite (ConvolutionLayer_Setup_algo_eq P cl w algo size Ha Hs Hcap) in H.
    inversion H. exists algo, size. auto.
  - exfalso. unfold ConvolutionLayer_Setup_algo in H. rewrite Ha in H.
    cbn [from_option mbind Result_bind] in H.
    change (fwd_workspace_query (set_fwd _ _ _ cl) algo)
      with (fwd_workspace_query cl algo) in H.
    rewrite Hs in H. cbn [from_option mbind Result_bind] in H.
    unfold cudaMalloc, device_malloc in H. cbn [log device] in H.
    destruct (Z.leb_spec 0 size), (Z.leb_spec size (dev_free (device w)));
      cbn [andb] in H; try discriminate. lia.
Qed.

Lemma ConvolutionLayer_Setup_inv P cl w cl' w' :
  ConvolutionLayer_Setup P cl w = Ok (cl', w') ->
  exists cl1 w1, ConvolutionLayer_Setup_algo P cl1 w1 = Ok (cl', w').
Proof.
  unfold ConvolutionLayer_Setup. intros H.
  destruct (Layer_Setup P (base cl) w) as [[b w0]|e]; [|discriminate].
  cbn [mbind Result_bind] in H.
  match type of H with
  | mbind _ ?r = _ => destruct r as [[cl1 w1]|e]; [|discriminate]
  end.
  cbn [mbind Result_bind] in H. eauto.
Qed.

Lemma after_creates_dev_next P size m : forall w,
  dev_next (device (after_creates P size m w)) = dev_next (device w) + Z.of_nat m.
Proof.
  induction m as [|m IH]; intros w; cbn [after_creates]; [lia|].
  rewrite IH. cbn [world_after_create device device_after_malloc dev_next]. lia.
Qed.

Lemma handles_live_after_creates P size m w ids :
  handles_live w ids -> handles_live (after_creates P size m w) ids.
Proof. intros H id Hid. apply after_creates_live, H, Hid. Qed.

Lemma weights_size_exact cl :
  prod4_fits (output_num_ (conv_param_ cl)) (c_ (input_dim_ (base cl)))
             (kernel_size_h_ (conv_param_ cl)) (kernel_size_w_ (conv_param_ cl)) ->
  weights_size_of cl =
    output_num_ (conv_param_ cl) * c_ (input_dim_ (base cl)) *
    kernel_size_h_ (conv_param_ cl) * kernel_size_w_ (conv_param_ cl).
Proof.
  intros (H1 & H2 & H3). unfold weights_size_of.
  rewrite (Int_mul_fits _ _ H1), (Int_mul_fits _ _ H2). now apply Int_mul_fits.
Qed.

Lemma out_dim_ext cl cl' :
  input_dim_ (base cl') = input_dim_ (base cl) ->
  conv_param_ cl' = conv_param_ cl ->
  out_dim cl' = out_dim cl.
Proof. unfold out_dim. now intros -> ->. Qed.

Lemma extents_defined_ext cl cl' :
  input_dim_ (base cl') = input_dim_ (base cl) ->
  conv_param_ cl' = conv_param_ cl ->
  extents_defined cl -> extents_defined cl'.
Proof. unfold extents_defined. now intros -> ->. Qed.

Lemma weights_size_of_ext cl cl' :
  input_dim_ (base cl') = input_dim_ (base cl) ->
  conv_param_ cl' = conv_param_ cl ->
  weights_size_of cl' = weights_size_of cl.
Proof. unfold weights_size_of. now intros -> ->. Qed.

Lemma ConvolutionLayer_Setup_standalone_eq P cl w algo ws :
  let b := base cl in
  let n := Z.to_nat (num_inputs_ b) in
  let m := Z.to_nat (num_outputs_ cl) in
  let bsize := dim_size (input_dim_ b) in
  let tsize := dim_size (out_dim cl) in
  let wsize := weights_size_of cl in
  let k := next_chunk_id (data_manager w) in
  let w3 := after_creates P wsize 2
              (after_creates P tsize (2 * m) (after_creates P bsize (2 * n) w)) in
  standalone (input_dim_ b) = true ->
  extents_defined cl ->
  0 <= bsize * sizeof_T P -> 0 <= tsize * sizeof_T P ->
  0 <= wsize * sizeof_T P -> 0 <= ws ->
  2 * Z.of_nat n * (bsize * sizeof_T P) + 2 * Z.of_nat m * (tsize * sizeof_T P)
    + 2 * (wsize * sizeof_T P) + ws <= dev_free (device w) ->
  handles_live w (bottom_chunk_ids_ b) ->
  handles_live w (bottom_diff_chunk_ids_ b) ->
  handles_live w (top_chunk_ids_ cl) ->
  handles_live w (top_diff_chunk_ids_ cl) ->
  cudnnGetConvolutionForwardAlgorithm P (algo_query cl) = Some algo ->
  cudnnGetConvolutionForwardWorkspaceSize P (workspace_query cl algo) = Some ws ->
  ConvolutionLayer_Setup P cl w =
    Ok (conv_after_Setup cl k algo ws (dev_next (device w3)),
        mkWorld (device_after_malloc ws (device w3)) (data_manager w3)
                (calls w3 ++ [GetForwardAlgorithmCall (algo_query cl);
                              GetForwardWorkspaceSizeCall (workspace_query cl algo);
                              CudaMallocCall ws (dev_next (device w3))])).
Proof.
  intros b n m bsize tsize wsize k w3 Hst Hdef Hbs Hts Hws Hws0 Hcap
         Hl1 Hl2 Hl3 Hl4 Ha Hq.
  unfold ConvolutionLayer_Setup.
  rewrite Layer_Setup_standalone_eq; fold b n bsize k; try assumption; [|lia].
  run_ok.
  set (w1 := after_creates P bsize (2 * n) w).
  set (cl1 := set_desc_ _ _).
  assert (Hi1 : input_dim_ (base cl1) = input_dim_ b) by reflexivity.
  assert (Hp1 : conv_param_ cl1 = conv_param_ cl) by reflexivity.
  assert (Hm1 : num_outputs_ cl1 = num_outputs_ cl) by reflexivity.
  assert (Ho1 : out_dim cl1 = out_dim cl) by (apply out_dim_ext; assumption).
  assert (Hw1 : weights_size_of cl1 = wsize)
    by (apply weights_size_of_ext; assumption).
  rewrite Hi1, Hst.
  assert (Hf1 : dev_free (device w1) =
                dev_free (device w) - Z.of_nat (2 * n) * (bsize * sizeof_T P)).
  { unfold w1. now rewrite after_creates_free. }
  assert (Hk1 : next_chunk_id (data_manager w1) = k + 2 * Z.of_nat n).
  { unfold w1. rewrite after_creates_next. fold k. lia. }
  rewrite ConvolutionLayer_Setup_data_eq;
    rewrite ?Hp1, ?Hm1, ?Ho1, ?Hw1; fold m tsize;
    [ | apply (extents_defined_ext cl cl1); assumption
      | exact Hts | exact Hws | lia
      | apply handles_live_after_creates; exact Hl3
      | apply handles_live_after_creates; exact Hl4 ].
  run_ok. rewrite Hk1.
  set (cl2 := set_weights _ _ _ _ _).
  set (w3' := after_creates P wsize 2 _).
  assert (Hf3 : dev_free (device w3') = dev_free (device w1)
                 - Z.of_nat (2 * m) * (tsize * sizeof_T P)
                 - 2 * (wsize * sizeof_T P)).
  { unfold w3'. rewrite !after_creates_free. lia. }
  assert (Ha2 : fwd_algo_query cl2 = algo_query cl) by reflexivity.
  assert (Hq2 : fwd_workspace_query cl2 algo = workspace_query cl algo)
    by reflexivity.
  rewrite (ConvolutionLayer_Setup_algo_eq P cl2 w3' algo ws);
    [ | rewrite Ha2; exact Ha | rewrite Hq2; exact Hq | lia ].
  rewrite Ha2, Hq2. reflexivity.
Qed.

(** C6, as the code has it.  In standalone mode, when the two divisions
    of [ComputeOutputDim] are defined and the product
    [output_num_ * c_ * kernel_size_h_ * kernel_size_w_] stays within the
    range of [int], [ConvolutionLayer::Setup] creates, after the
    [2 * num_inputs_] input buffers and the [2 * num_outputs_] output
    buffers, one weight buffer and one weight-gradient buffer, each of
    that many elements, and no other: the two calls do not depend on
    [num_inputs_].  (Beyond the range the size is the wrapped product.) *)
Theorem ConvolutionLayer_Setup_one_weight_set
    (P : Platform) (cl : ConvolutionLayer) (w : World) (algo ws : Z) :
  let b := base cl in
  let d := input_dim_ b in
  let p := conv_param_ cl in
  let n := Z.to_nat (num_inputs_ b) in
  let m := Z.to_nat (num_outputs_ cl) in
  let bsize := dim_size d in
  let tsize := dim_size (out_dim cl) in
  let wsize := output_num_ p * c_ d * kernel_size_h_ p * kernel_size_w_ p in
  let k := next_chunk_id (data_manager w) in
  let kw := k + 2 * Z.of_nat n + 2 * Z.of_nat m in
  let ptr := dev_next (device w) + 2 * Z.of_nat n + 2 * Z.of_nat m + 2 in
  standalone d = true ->
  extents_defined cl ->
  prod4_fits (output_num_ p) (c_ d) (kernel_size_h_ p) (kernel_size_w_ p) ->
  0 <= bsize * sizeof_T P -> 0 <= tsize * sizeof_T P ->
  0 <= wsize * sizeof_T P -> 0 <= ws ->
  2 * Z.of_nat n * (bsize * sizeof_T P) + 2 * Z.of_nat m * (tsize * sizeof_T P)
    + 2 * (wsize * sizeof_T P) + ws <= dev_free (device w) ->
  handles_live w (bottom_chunk_ids_ b) ->
  handles_live w (bottom_diff_chunk_ids_ b) ->
  handles_live w (top_chunk_ids_ cl) ->
  handles_live w (top_diff_chunk_ids_ cl) ->
  cudnnGetConvolutionForwardAlgorithm P (algo_query cl) = Some algo ->
  cudnnGetConvolutionForwardWorkspaceSize P (workspace_query cl algo) = Some ws ->
  exists cl' w',
    ConvolutionLayer_Setup P cl w = Ok (cl', w') /\
    weights_chunk_id_ cl' = Some kw /\
    weights_ cl' = Some kw /\
    weights_diff_chunk_id_ cl' = Some (kw + 1) /\
    weights_diff_ cl' = Some (kw + 1) /\
    data_size <$> chunks (data_manager w') !! kw = Some wsize /\
    data_size <$> chunks (data_manager w') !! (kw + 1) = Some wsize /\
    calls w' =
      calls w ++ create_calls bsize k (2 * n)
              ++ create_calls tsize (k + 2 * Z.of_nat n) (2 * m)
              ++ [CreateDataCall wsize kw; CreateDataCall wsize (kw + 1)]
              ++ [GetForwardAlgorithmCall (algo_query cl);
                  GetForwardWorkspaceSizeCall (workspace_query cl algo);
                  CudaMallocCall ws ptr].
Proof.
  intros b d p n m bsize tsize wsize k kw ptr Hst Hdef Hfit Hbs Hts Hws Hws0
         Hcap Hl1 Hl2 Hl3 Hl4 Ha Hq.
  assert (Hwsize : weights_size_of cl = wsize) by now apply weights_size_exact.
  eexists _, _. split.
  { apply ConvolutionLayer_Setup_standalone_eq; fold b d p n m bsize tsize;
      rewrite ?Hwsize; eassumption. }
  rewrite Hwsize. fold b d n m bsize tsize k.
  set (w1 := after_creates P bsize (2 * n) w).
  set (w2 := after_creates P tsize (2 * m) w1).
  assert (Hk1 : next_chunk_id (data_manager w1) = k + 2 * Z.of_nat n).
  { unfold w1. rewrite after_creates_next. fold k. lia. }
  assert (Hk2 : next_chunk_id (data_manager w2) = kw).
  { unfold w2. rewrite after_creates_next, Hk1. unfold kw. lia. }
  cbn [data_manager calls].
  split; [reflexivity|]. split; [reflexivity|].
  split; [reflexivity|]. split; [reflexivity|].
  split; [|split].
  - apply after_creates_new. rewrite Hk2. lia.
  - apply after_creates_new. rewrite Hk2. lia.
  - assert (Hc1 : calls w1 = calls w ++ create_calls bsize k (2 * n))
      by apply after_creates_calls.
    assert (Hc2 : calls w2 = calls w1 ++
                    create_calls tsize (k + 2 * Z.of_nat n) (2 * m))
      by (unfold w2; rewrite after_creates_calls, Hk1; reflexivity).
    fold w1 w2. rewrite (after_creates_calls P wsize 2 w2), Hk2, Hc2, Hc1.
    unfold w2, w1. rewrite !after_creates_dev_next.
    match goal with |- context [CudaMallocCall ws ?x :: _] =>
      replace x with ptr by (unfold ptr; lia) end.
    cbn [create_calls]. rewrite <- !(assoc_L (++)). reflexivity.
Qed.

(** What the tail of [Setup] leaves in the layer and at the end of the
    call log. *)
Lemma ConvolutionLayer_Setup_always_scratch_facts P cl w cl' w' :
  ConvolutionLayer_Setup P cl w = Ok (cl', w') ->
  exists algo size ptr before,
    cudnnGetConvolutionForwardAlgorithm P (fwd_algo_query cl') = Some algo /\
    cudnnGetConvolutionForwardWorkspaceSize P (fwd_workspace_query cl' algo)
      = Some size /\
    fwd_algo_ cl' = Some algo /\
    fwd_workspace_size_ cl' = Some size /\
    workspace_ cl' = Some ptr /\
    calls w' = before ++ [GetForwardAlgorithmCall (fwd_algo_query cl');
                          GetForwardWorkspaceSizeCall (fwd_workspace_query cl' algo);
                          CudaMallocCall size ptr] /\
    dev_live (device w') !! ptr = Some size.
Proof.
  intros H. apply ConvolutionLayer_Setup_inv in H as (cl1 & w1 & H).
  apply ConvolutionLayer_Setup_algo_inv in H
    as (algo & size & Ha & Hs & Hcap & -> & ->).
  exists algo, size, (dev_next (device w1)), (calls w1).
  repeat split; try assumption.
  cbn [device device_after_malloc dev_live]. apply lookup_insert_eq.
Qed.

(** C2, as the code has it.  [Setup] ends with a [cudaMalloc] call that no
    test on the size guards: a [Setup] that returns has asked the library
    for the workspace size of the algorithm it selected and has then, as
    its last call, asked [cudaMalloc] for exactly that size, zero included;
    the address it got is kept in [workspace_] and is allocated on the
    device. *)
Theorem ConvolutionLayer_Setup_always_allocates_scratch
    (P : Platform) (cl : ConvolutionLayer) (w : World)
    (cl' : ConvolutionLayer) (w' : World) :
  ConvolutionLayer_Setup P cl w = Ok (cl', w') ->
  exists algo size ptr,
    fwd_algo_ cl' = Some algo /\
    cudnnGetConvolutionForwardWorkspaceSize P (fwd_workspace_query cl' algo)
      = Some size /\
    fwd_workspace_size_ cl' = Some size /\
    workspace_ cl' = Some ptr /\
    last (calls w') = Some (CudaMallocCall size ptr) /\
    dev_live (device w') !! ptr = Some size.
Proof.
  intros H.
  destruct (ConvolutionLayer_Setup_always_scratch_facts P cl w cl' w' H)
    as (algo & size & ptr & before & _ & Hs & Hfa & Hfs & Hfw & Hcalls & Hlive).
  exists algo, size, ptr. repeat split; try assumption.
  rewrite Hcalls.
  change [GetForwardAlgorithmCall (fwd_algo_query cl');
          GetForwardWorkspaceSizeCall (fwd_workspace_query cl' algo);
          CudaMallocCall size ptr]
    with ([GetForwardAlgorithmCall (fwd_algo_query cl');
           GetForwardWorkspaceSizeCall (fwd_workspace_query cl' algo)]
          ++ [CudaMallocCall size ptr]).
  rewrite (assoc_L (++)). apply last_snoc.
Qed.

(** ** [ConvolutionLayer::ForwardPropagation] *)

Lemma vec_at_nat {A} (v : list A) (i : nat) :
  vec_at v (Z.of_nat i) = from_option UndefinedBehaviour (v !! i).
Proof.
  unfold vec_at. destruct (Z.ltb_spec (Z.of_nat i) 0); [lia|].
  now rewrite Nat2Z.id.
Qed.

Lemma fill_body_eq cl (i : nat) w :
  fill_body cl (Z.of_nat i) w =
  match bottoms_ (base cl) !! i with
  | Some b =>
      match chunks (data_manager w) !! b with
      | Some _ => Ok (log (FillerCall b) w)
      | None => Err UndefinedBehaviour
      end
  | None => Err UndefinedBehaviour
  end.
Proof.
  unfold fill_body, Filler, deref. rewrite vec_at_nat.
  destruct (bottoms_ (base cl) !! i) as [b|]; [|reflexivity].
  cbn [from_option mbind Result_bind].
  destruct (chunks (data_manager w) !! b); reflexivity.
Qed.

Lemma forward_body_eq P cl (i : nat) w :
  forward_body P cl (Z.of_nat i) w =
  match conv_call cl (data_manager w) i with
  | Some c =>
      if cudnnConvolutionForward P c
      then Ok (log (ConvolutionForwardCall c) w)
      else Err CudnnFailure
  | None => Err UndefinedBehaviour
  end.
Proof.
  unfold forward_body, conv_call, deref. rewrite !vec_at_nat.
  destruct (bottoms_ (base cl) !! i) as [b|]; [|reflexivity].
  cbn [from_option mbind Result_bind option_bind].
  destruct (chunks (data_manager w) !! b) as [bd|]; [|reflexivity].
  cbn [from_option mbind Result_bind option_bind].
  destruct (weights_ cl) as [wp|]; [|reflexivity].
  cbn [from_option mbind Result_bind option_bind].
  destruct (chunks (data_manager w) !! wp) as [wd|]; [|reflexivity].
  cbn [from_option mbind Result_bind option_bind].
  destruct (fwd_algo_ cl) as [algo|]; [|reflexivity].
  cbn [from_option mbind Result_bind option_bind].
  destruct (workspace_ cl) as [ws|]; [|reflexivity].
  cbn [from_option mbind Result_bind option_bind].
  destruct (fwd_workspace_size_ cl) as [size|]; [|reflexivity].
  cbn [from_option mbind Result_bind option_bind].
  destruct (tops_ cl !! i) as [t|]; [|reflexivity].
  cbn [from_option mbind Result_bind option_bind].
  destruct (chunks (data_manager w) !! t) as [td|]; reflexivity.
Qed.

Lemma conv_call_ok_Some P cl dm i :
  conv_call_ok P cl dm i = true ->
  exists c, conv_call cl dm i = Some c /\ cudnnConvolutionForward P c = true.
Proof.
  unfold conv_call_ok. destruct (conv_call cl dm i) as [c|]; [eauto|discriminate].
Qed.

(** What a call found by [conv_call] is made of. *)
Lemma conv_call_fields cl dm i c :
  conv_call cl dm i = Some c ->
  cf_alpha c = DataType_one /\ cf_beta c = DataType_zero /\
  fwd_algo_ cl = Some (cf_algo c) /\
  workspace_ cl = Some (cf_workspace c) /\
  fwd_workspace_size_ cl = Some (cf_workspace_size c) /\
  (exists b bd, bottoms_ (base cl) !! i = Some b /\ chunks dm !! b = Some bd /\
                cf_bottom c = data_ptr bd) /\
  (exists t td, tops_ cl !! i = Some t /\ chunks dm !! t = Some td /\
                cf_top c = data_ptr td) /\
  (exists wp wd, weights_ cl = Some wp /\ chunks dm !! wp = Some wd /\
                 cf_weights c = data_ptr wd).
Proof.
  unfold conv_call. intros H.
  destruct (bottoms_ (base cl) !! i) as [b|]; [|discriminate].
  cbn [mbind option_bind] in H.
  destruct (chunks dm !! b) as [bd|] eqn:Hb; [|discriminate].
  cbn [mbind option_bind] in H.
  destruct (weights_ cl) as [wp|]; [|discriminate].
  cbn [mbind option_bind] in H.
  destruct (chunks dm !! wp) as [wd|] eqn:Hw; [|discriminate].
  cbn [mbind option_bind] in H.
  destruct (fwd_algo_ cl) as [algo|]; [|discriminate].
  cbn [mbind option_bind] in H.
  destruct (workspace_ cl) as [ws|]; [|discriminate].
  cbn [mbind option_bind] in H.
  destruct (fwd_workspace_size_ cl) as [size|]; [|discriminate].
  cbn [mbind option_bind] in H.
  destruct (tops_ cl !! i) as [t|]; [|discriminate].
  cbn [mbind option_bind] in H.
  destruct (chunks dm !! t) as [td|] eqn:Ht; [|discriminate].
  cbn [mbind option_bind] in H.
  inversion H; subst c; clear H. cbn.
  repeat split; eauto.
Qed.

Lemma fill_loop cl n : forall (i : nat) w,
  (forall j, (i <= j < i + n)%nat ->
     exists b, bottoms_ (base cl) !! j = Some b /\
               is_Some (chunks (data_manager w) !! b)) ->
  for_upto n (Z.of_nat i) (fill_body cl) w =
    Ok (mkWorld (device w) (data_manager w)
          (calls w ++ (FillerCall <$> take n (drop i (bottoms_ (base cl)))))).
Proof.
  induction n as [|n IH]; intros i w H.
  - cbn [for_upto take fmap list_fmap]. rewrite app_nil_r. now destruct w.
  - cbn [for_upto]. rewrite fill_body_eq.
    destruct (H i) as (b & Hb & [bd Hbd]); [lia|]. rewrite Hb, Hbd.
    rewrite bind_Ok.
    replace (Z.of_nat i + 1) with (Z.of_nat (S i)) by lia.
    rewrite IH by (intros j Hj; apply H; lia).
    cbn [log device data_manager calls].
    rewrite (drop_S _ _ _ Hb). cbn [take fmap list_fmap].
    now rewrite <- (assoc_L (++)).
Qed.

Lemma conv_calls_cons cl dm i n c :
  conv_call cl dm i = Some c ->
  conv_calls cl dm i (S n) = c :: conv_calls cl dm (S i) n.
Proof.
  intros H. unfold conv_calls.
  change (omap (conv_call cl dm) (seq i (S n)))
    with (match conv_call cl dm i with
          | Some y => y :: omap (conv_call cl dm) (seq (S i) n)
          | None => omap (conv_call cl dm) (seq (S i) n)
          end).
  now rewrite H.
Qed.

Lemma forward_loop P cl n : forall (i : nat) w,
  (forall j, (i <= j < i + n)%nat ->
     conv_call_ok P cl (data_manager w) j = true) ->
  for_upto n (Z.of_nat i) (forward_body P cl) w =
    Ok (mkWorld (device w) (data_manager w)
          (calls w ++ (ConvolutionForwardCall <$>
                         conv_calls cl (data_manager w) i n))).
Proof.
  induction n as [|n IH]; intros i w H.
  - cbn [for_upto]. unfold conv_calls. cbn [seq omap fmap list_fmap].
    rewrite app_nil_r. now destruct w.
  - cbn [for_upto]. rewrite forward_body_eq.
    destruct (conv_call_ok_Some P cl (data_manager w) i) as (c & Hc & Hok);
      [apply H; lia|].
    rewrite Hc, Hok. rewrite bind_Ok.
    replace (Z.of_nat i + 1) with (Z.of_nat (S i)) by lia.
    rewrite IH by (intros j Hj; apply H; lia).
    cbn [log device data_manager calls].
    rewrite (conv_calls_cons _ _ _ _ _ Hc). cbn [fmap list_fmap].
    now rewrite <- (assoc_L (++)).
Qed.

Lemma conv_calls_length P cl dm n : forall i,
  (forall j, (i <= j < i + n)%nat -> conv_call_ok P cl dm j = true) ->
  length (conv_calls cl dm i n) = n.
Proof.
  induction n as [|n IH]; intros i H; [reflexivity|].
  destruct (conv_call_ok_Some P cl dm i) as (c & Hc & _); [apply H; lia|].
  rewrite (conv_calls_cons _ _ _ _ _ Hc). cbn [length].
  rewrite IH; [reflexivity|]. intros j Hj. apply H. lia.
Qed.

(** When every call succeeds, the [j]-th of them is the one for input [j]. *)
Lemma conv_calls_nth P cl dm n : forall i j c,
  (forall j, (i <= j < i + n)%nat -> conv_call_ok P cl dm j = true) ->
  conv_calls cl dm i n !! j = Some c ->
  conv_call cl dm (i + j) = Some c.
Proof.
  induction n as [|n IH]; intros i j c H Hj; [discriminate|].
  destruct (conv_call_ok_Some P cl dm i) as (c0 & Hc0 & _); [apply H; lia|].
  rewrite (conv_calls_cons _ _ _ _ _ Hc0) in Hj.
  destruct j as [|j].
  - cbn in Hj. inversion Hj; subst. now rewrite Nat.add_0_r.
  - cbn in Hj. replace (i + S j)%nat with (S i + j)%nat by lia.
    apply IH; [|exact Hj]. intros j' Hj'. apply H. lia.
Qed.

Lemma ready_inv P cl w :
  ready P cl w = true ->
  exists wp ws bytes,
    weights_ cl = Some wp /\ workspace_ cl = Some ws /\
    is_Some (chunks (data_manager w) !! wp) /\
    dev_live (device w) !! ws = Some bytes /\
    (forall j, (j < Z.to_nat (num_inputs_ (base cl)))%nat ->
       conv_call_ok P cl (data_manager w) j = true).
Proof.
  unfold ready. intros H.
  destruct (weights_ cl) as [wp|]; [|discriminate].
  destruct (workspace_ cl) as [ws|]; [|discriminate].
  apply andb_true_iff in H as [H H3]. apply andb_true_iff in H as [H1 H2].
  apply bool_decide_eq_true in H1. apply bool_decide_eq_true in H2.
  destruct H2 as [bytes H2].
  exists wp, ws, bytes. repeat split; try assumption.
  intros j Hj. rewrite forallb_forall in H3. apply H3.
  apply in_seq. lia.
Qed.

(** The world a forward pass over a ready layer leaves. *)
Lemma ConvolutionLayer_ForwardPropagation_eq P cl w wp ws bytes :
  let n := Z.to_nat (num_inputs_ (base cl)) in
  ready P cl w = true ->
  weights_ cl = Some wp -> workspace_ cl = Some ws ->
  dev_live (device w) !! ws = Some bytes ->
  ConvolutionLayer_ForwardPropagation P cl w =
    Ok (cl,
        mkWorld (mkDevice (dev_free (device w) + bytes)
                          (delete ws (dev_live (device w)))
                          (dev_next (device w)))
                (data_manager w)
                (calls w ++ [FillerCall wp] ++ fill_calls cl
                   ++ [ProfilerStartCall]
                   ++ (ConvolutionForwardCall <$>
                         conv_calls cl (data_manager w) 0 n)
                   ++ [ProfilerStopCall; CudaFreeCall ws])).
Proof.
  intros n Hr Hwp Hws Hlive.
  destruct (ready_inv P cl w Hr) as (wp' & ws' & bytes' & Hwp' & Hws' & [wd Hwd] & _ & Hok).
  rewrite Hwp in Hwp'. inversion Hwp'; subst wp'. clear Hwp' Hws'.
  fold n in Hok.
  unfold ConvolutionLayer_ForwardPropagation.
  rewrite Hwp. cbn [from_option]. rewrite bind_Ok.
  unfold Filler, deref. rewrite Hwd. cbn [from_option]. rewrite !bind_Ok.
  unfold for_int. fold n.
  rewrite (fill_loop cl n 0).
  2:{ intros j Hj. destruct (conv_call_ok_Some P cl (data_manager w) j) as (c & Hc & _);
        [apply Hok; lia|].
      apply conv_call_fields in Hc as (_ & _ & _ & _ & _ & (b & bd & Hb & Hbd & _) & _).
      exists b. split; [exact Hb|]. cbn [log data_manager]. eauto. }
  rewrite bind_Ok.
  rewrite (forward_loop P cl n 0)
    by (intros j Hj; cbn [log data_manager]; apply Hok; lia).
  rewrite bind_Ok. rewrite Hws. cbn [from_option]. rewrite bind_Ok.
  unfold cudaFree, device_free. cbn [log device data_manager calls].
  rewrite Hlive. rewrite bind_Ok. cbn [drop].
  unfold fill_calls. fold n.
  rewrite <- !(assoc_L (++)). reflexivity.
Qed.

(** C7. The scratch memory does not outlive a forward pass: on a ready
    layer [ForwardPropagation] returns, its last call is the [cudaFree] of
    [workspace_], the address is no longer allocated on the device, and
    the layer, which keeps the stale pointer, is not ready for another
    pass. *)
Theorem ConvolutionLayer_ForwardPropagation_frees_workspace
    (P : Platform) (cl : ConvolutionLayer) (w : World) :
  ready P cl w = true ->
  exists w' ws,
    ConvolutionLayer_ForwardPropagation P cl w = Ok (cl, w') /\
    workspace_ cl = Some ws /\
    is_Some (dev_live (device w) !! ws) /\
    last (calls w') = Some (CudaFreeCall ws) /\
    dev_live (device w') !! ws = None /\
    ready P cl w' = false.
Proof.
  intros Hr.
  destruct (ready_inv P cl w Hr) as (wp & ws & bytes & Hwp & Hws & _ & Hlive & _).
  eexists _, ws. split.
  { apply (ConvolutionLayer_ForwardPropagation_eq P cl w wp ws bytes);
      assumption. }
  split; [exact Hws|]. split; [eauto|].
  cbn [calls device dev_live]. split; [|split].
  - rewrite !(assoc_L (++)).
    change [ProfilerStopCall; CudaFreeCall ws]
      with ([ProfilerStopCall] ++ [CudaFreeCall ws]).
    rewrite (assoc_L (++)). apply last_snoc.
  - apply lookup_delete_eq.
  - unfold ready. rewrite Hwp, Hws. cbn [device dev_live].
    rewrite lookup_delete_eq.
    rewrite (bool_decide_eq_false_2 (is_Some None)) by (intros [? ?]; discriminate).
    now rewrite andb_false_r.
Qed.

(** C9. A forward pass right after [Setup] makes one
    [cudnnConvolutionForward] call per input, [num_inputs_] in all and in
    the order of the inputs, the call for input [i] reading [bottoms_[i]]
    and the weights and writing [tops_[i]] with [alpha = 1] and
    [beta = 0], under the algorithm that [Setup] obtained from the library
    and with the scratch memory that [Setup] allocated. *)
Theorem ConvolutionLayer_ForwardPropagation_calls
    (P : Platform) (cl0 : ConvolutionLayer) (w0 : World)
    (cl : ConvolutionLayer) (w : World) :
  ConvolutionLayer_Setup P cl0 w0 = Ok (cl, w) ->
  ready P cl w = true ->
  exists w' algo size ptr wp cs before,
    ConvolutionLayer_ForwardPropagation P cl w = Ok (cl, w') /\
    cudnnGetConvolutionForwardAlgorithm P (fwd_algo_query cl) = Some algo /\
    calls w = before ++ [GetForwardAlgorithmCall (fwd_algo_query cl);
                         GetForwardWorkspaceSizeCall (fwd_workspace_query cl algo);
                         CudaMallocCall size ptr] /\
    calls w' = calls w ++ [FillerCall wp] ++ fill_calls cl
                 ++ [ProfilerStartCall]
                 ++ (ConvolutionForwardCall <$> cs)
                 ++ [ProfilerStopCall; CudaFreeCall ptr] /\
    length cs = Z.to_nat (num_inputs_ (base cl)) /\
    forall i c, cs !! i = Some c ->
      cf_alpha c = 1 /\ cf_beta c = 0 /\
      cf_algo c = algo /\ cf_workspace c = ptr /\ cf_workspace_size c = size /\
      (exists b bd, bottoms_ (base cl) !! i = Some b /\
                    chunks (data_manager w) !! b = Some bd /\
                    cf_bottom c = data_ptr bd) /\
      (exists t td, tops_ cl !! i = Some t /\
                    chunks (data_manager w) !! t = Some td /\
                    cf_top c = data_ptr td) /\
      (exists wd, weights_ cl = Some wp /\
                  chunks (data_manager w) !! wp = Some wd /\
                  cf_weights c = data_ptr wd).
Proof.
  intros HS Hr.
  destruct (ConvolutionLayer_Setup_always_scratch_facts P cl0 w0 cl w HS)
    as (algo & size & ptr & before & Ha & _ & Hfa & Hfs & Hfw & Hcalls & _).
  destruct (ready_inv P cl w Hr) as (wp & ws & bytes & Hwp & Hws & _ & Hlive & Hok).
  rewrite Hfw in Hws. inversion Hws; subst ws. clear Hws.
  set (n := Z.to_nat (num_inputs_ (base cl))) in *.
  exists (mkWorld (mkDevice (dev_free (device w) + bytes)
                            (delete ptr (dev_live (device w)))
                            (dev_next (device w)))
                  (data_manager w)
                  (calls w ++ [FillerCall wp] ++ fill_calls cl
                     ++ [ProfilerStartCall]
                     ++ (ConvolutionForwardCall <$>
                           conv_calls cl (data_manager w) 0 n)
                     ++ [ProfilerStopCall; CudaFreeCall ptr])),
         algo, size, ptr, wp, (conv_calls cl (data_manager w) 0 n), before.
  split.
  { apply (ConvolutionLayer_ForwardPropagation_eq P cl w wp ptr bytes);
      assumption. }
  split; [exact Ha|]. split; [exact Hcalls|]. split; [reflexivity|].
  split.
  { apply (conv_calls_length P). intros j Hj. apply Hok. lia. }
  intros i c Hc.
  apply (conv_calls_nth P) in Hc; [|intros j Hj; apply Hok; lia].
  cbn [Nat.add] in Hc.
  apply conv_call_fields in Hc
    as (H1 & H2 & H3 & H4 & H5 & H6 & H7 & (wp' & wd & Hwp' & Hwd & H8)).
  rewrite Hfa in H3. rewrite Hfw in H4. rewrite Hfs in H5.
  inversion H3. inversion H4. inversion H5.
  rewrite Hwp in Hwp'. inversion Hwp'; subst wp'.
  repeat split; try assumption; try reflexivity.
  exists wd. auto.
Qed.

(** ** The concrete run *)

Ltac fits_by_computation :=
  unfold extent_fits, prod4_fits, Int.fits;
  repeat split; vm_compute; intros Hcmp; discriminate Hcmp.

Ltac no_handles := intros ? Hin; inversion Hin.

Ltac defined_by_computation :=
  unfold extents_defined, div_defined;
  repeat split; vm_compute; intros Hcmp; discriminate Hcmp.

(** A [1x1] input, a [2x2] kernel, stride 2: the code gives extent 1, the
    floor formula 0. *)
Lemma ComputeOutputDim_truncates_toward_zero :
  0 < n_ (input_dim_ (base example_small)) /\
  0 < c_ (input_dim_ (base example_small)) /\
  0 < h_ (input_dim_ (base example_small)) /\
  0 < w_ (input_dim_ (base example_small)) /\
  exists cl',
    ComputeOutputDim example_small = Ok cl' /\
    h_ (output_dim_ cl') = 1 /\
    (h_ (input_dim_ (base example_small))
     + 2 * pad_h_ (conv_param_ example_small)
     - kernel_size_h_ (conv_param_ example_small))
    / stride_u_ (conv_param_ example_small) + 1 = 0.
Proof.
  repeat split; try (cbn; lia).
  exists (set_output_dim_ (mkDataDim 1 1 1 1) example_small).
  repeat split.
Qed.

Lemma ComputeOutputDim_extents_witness :
  exists cl',
    ComputeOutputDim example_layer = Ok cl' /\
    h_ (output_dim_ cl') = 8 /\ w_ (output_dim_ cl') = 8.
Proof.
  destruct (ComputeOutputDim_extents example_layer)
    as (cl' & H & _ & _ & Hh & Hw & _);
    [cbn; lia | cbn; lia | fits_by_computation | fits_by_computation |].
  exists cl'. split; [exact H|]. split; [exact Hh | exact Hw].
Defined.

(** The library asks for no scratch memory, and [Setup] still calls
    [cudaMalloc], for 0 bytes. *)
Lemma ConvolutionLayer_Setup_allocates_zero_bytes :
  ConvolutionLayer_Setup example_platform example_layer example_world
    = Ok example_ready /\
  cudnnGetConvolutionForwardWorkspaceSize example_platform
    (fwd_workspace_query (fst example_ready) 1) = Some 0 /\
  fwd_workspace_size_ (fst example_ready) = Some 0 /\
  existsb is_CudaMalloc (calls example_world) = false /\
  existsb is_CudaMalloc (calls (snd example_ready)) = true /\
  last (calls (snd example_ready)) = Some (CudaMallocCall 0 7).
Proof.
  split; [vm_compute; reflexivity|]. split; [vm_compute; reflexivity|].
  split; [vm_compute; reflexivity|]. split; [vm_compute; reflexivity|].
  split; vm_compute; reflexivity.
Qed.

Lemma ConvolutionLayer_Setup_always_allocates_scratch_witness :
  exists ptr,
    workspace_ (fst example_ready) = Some ptr /\
    last (calls (snd example_ready)) = Some (CudaMallocCall 0 ptr).
Proof.
  destruct (ConvolutionLayer_Setup_always_allocates_scratch
              example_platform example_layer example_world
              (fst example_ready) (snd example_ready))
    as (algo & size & ptr & _ & Hs & _ & Hw & Hl & _);
    [vm_compute; reflexivity|].
  assert (Hsz : size = 0) by (vm_compute in Hs; congruence).
  subst size. exists ptr. split; [exact Hw | exact Hl].
Defined.

(** Both propagation calls return normally on layers that were never set
    up. *)
Lemma propagation_before_Setup_returns :
  ConvolutionLayer_BackwardPropagation example_fresh example_world
    = Ok (example_fresh, example_world) /\
  Layer_ForwardPropagation (base example_fresh) example_world
    = Ok (base example_fresh, example_world) /\
  Layer_BackwardPropagation (base example_fresh) example_world
    = Ok (base example_fresh, example_world) /\
  fwd_algo_ example_fresh = None /\ workspace_ example_fresh = None.
Proof. repeat split. Qed.

Lemma Layer_Setup_composed_noop_witness :
  Layer_Setup example_platform (base example_fresh) example_world
    = Ok (base example_fresh, example_world).
Proof.
  apply (Layer_Setup_composed_noop example_platform (base example_fresh)
           example_world); reflexivity.
Defined.

Lemma Layer_Setup_standalone_allocates_witness :
  exists l' w',
    Layer_Setup example_platform (base example_layer) example_world
      = Ok (l', w') /\
    calls w' = [CreateDataCall 384 0; CreateDataCall 384 1] /\
    bottom_chunk_ids_ l' = [0] /\ bottom_diff_chunk_ids_ l' = [1].
Proof.
  destruct (Layer_Setup_standalone_allocates example_platform
              (base example_layer) example_world)
    as (l' & w' & H & _ & Hc & Hi & Hd & _);
    [cbn; lia | cbn; lia | cbn; lia | cbn; lia | fits_by_computation
    | cbn; lia | cbn; lia | cbn; lia | no_handles | no_handles |].
  exists l', w'. repeat split; assumption.
Defined.

Lemma Layer_Setup_twice_allocates_twice_witness :
  exists l1 w1 l2 w2,
    Layer_Setup example_platform (base example_layer) example_world
      = Ok (l1, w1) /\
    Layer_Setup example_platform l1 w1 = Ok (l2, w2) /\
    bottom_chunk_ids_ l2 = [0; 2] /\ bottom_diff_chunk_ids_ l2 = [1; 3] /\
    calls w2 = [CreateDataCall 384 0; CreateDataCall 384 1;
                CreateDataCall 384 2; CreateDataCall 384 3].
Proof.
  destruct (Layer_Setup_twice_allocates_twice example_platform
              (base example_layer) example_world)
    as (l1 & w1 & l2 & w2 & H1 & H2 & _ & _ & _ & Hi & Hd & Hc & _);
    [cbn; lia | cbn; lia | cbn; lia | cbn; lia | fits_by_computation
    | cbn; lia | cbn; lia | cbn; lia
    | reflexivity | reflexivity | reflexivity | reflexivity |].
  exists l1, w1, l2, w2. repeat split; assumption.
Defined.

Lemma ConvolutionLayer_Setup_one_weight_set_witness :
  exists cl' w',
    ConvolutionLayer_Setup example_platform example_layer example_world
      = Ok (cl', w') /\
    weights_chunk_id_ cl' = Some 4 /\
    weights_diff_chunk_id_ cl' = Some 5 /\
    data_size <$> chunks (data_manager w') !! 4 = Some 108 /\
    data_size <$> chunks (data_manager w') !! 5 = Some 108.
Proof.
  destruct (ConvolutionLayer_Setup_one_weight_set example_platform
              example_layer example_world 1 0)
    as (cl' & w' & H & Hi & _ & Hd & _ & Hs1 & Hs2 & _);
    [reflexivity | defined_by_computation | fits_by_computation
    | vm_compute; discriminate | vm_compute; discriminate
    | vm_compute; discriminate | lia | vm_compute; discriminate
    | no_handles | no_handles | no_handles | no_handles
    | reflexivity | reflexivity |].
  exists cl', w'. repeat split; assumption.
Defined.

Lemma ConvolutionLayer_ForwardPropagation_frees_workspace_witness :
  exists w',
    ConvolutionLayer_ForwardPropagation example_platform
      (fst example_ready) (snd example_ready) = Ok (fst example_ready, w') /\
    last (calls w') = Some (CudaFreeCall 7) /\
    dev_live (device w') !! 7 = None.
Proof.
  destruct (ConvolutionLayer_ForwardPropagation_frees_workspace
              example_platform (fst example_ready) (snd example_ready))
    as (w' & ws & H & Hw & _ & Hl & Hd & _);
    [vm_compute; reflexivity|].
  assert (Hws : ws = 7) by (vm_compute in Hw; congruence).
  subst ws. exists w'. split; [exact H|]. split; [exact Hl | exact Hd].
Defined.

Lemma ConvolutionLayer_ForwardPropagation_calls_witness :
  exists w' cs,
    ConvolutionLayer_ForwardPropagation example_platform
      (fst example_ready) (snd example_ready) = Ok (fst example_ready, w') /\
    length cs = 1%nat /\
    forall i c, cs !! i = Some c -> cf_alpha c = 1 /\ cf_beta c = 0.
Proof.
  destruct (ConvolutionLayer_ForwardPropagation_calls example_platform
              example_layer example_world
              (fst example_ready) (snd example_ready))
    as (w' & algo & size & ptr & wp & cs & before & H & _ & _ & _ & Hlen & Hcs);
    [vm_compute; reflexivity | vm_compute; reflexivity |].
  exists w', cs. split; [exact H|]. split; [exact Hlen|].
  intros i c Hc. destruct (Hcs i c Hc) as (Ha & Hb & _). split; assumption.
Defined.

(** ** Further properties of [Layer::Setup] *)

Lemma CreateData_fail P size w :
  ~ (0 <= size * sizeof_T P <= dev_free (device w)) ->
  CreateData P size w = Err OutOfDeviceMemory.
Proof.
  intros H. unfold CreateData, device_malloc.
  destruct (Z.leb_spec 0 (size * sizeof_T P)),
           (Z.leb_spec (size * sizeof_T P) (dev_free (device w)));
    cbn [andb]; try reflexivity. lia.
Qed.

(** X1. A shape with any one extent zero is treated as composed mode: the
    base [Setup] returns with the layer and the world as they were. *)
Theorem Layer_Setup_any_zero_noop (P : Platform) (l : Layer) (w : World) :
  n_ (input_dim_ l) = 0 \/ c_ (input_dim_ l) = 0 \/
  h_ (input_dim_ l) = 0 \/ w_ (input_dim_ l) = 0 ->
  Layer_Setup P l w = Ok (l, w).
Proof.
  intros H. unfold Layer_Setup. now rewrite standalone_zero.
Qed.

(** X2. [Setup] does not recover from a failed allocation: in standalone
    mode with at least one input, when the device cannot hold one input
    buffer and its gradient, the call ends with [OutOfDeviceMemory]. *)
Theorem Layer_Setup_out_of_memory (P : Platform) (l : Layer) (w : World) :
  let bytes := dim_size (input_dim_ l) * sizeof_T P in
  standalone (input_dim_ l) = true ->
  0 < num_inputs_ l ->
  handles_live w (bottom_chunk_ids_ l) ->
  bytes < 0 \/ dev_free (device w) < 2 * bytes ->
  Layer_Setup P l w = Err OutOfDeviceMemory.
Proof.
  intros bytes Hst Hn Hl Hmem. unfold Layer_Setup. rewrite Hst. unfold for_int.
  cbn [num_inputs_ set_bottom_desc_].
  destruct (Z.to_nat (num_inputs_ l)) as [|n'] eqn:Hn'; [lia|].
  cbn [for_upto]. rewrite Layer_Setup_body_quad.
  unfold bottom_quad.
  cbn [bottoms_ bottom_chunk_ids_ bottom_diffs_ bottom_diff_chunk_ids_
       input_dim_ set_bottom_desc_].
  unfold alloc_body. fold bytes in Hmem.
  destruct (decide (0 <= bytes <= dev_free (device w))) as [Hfit|Hfit].
  - rewrite CreateData_ok by exact Hfit. run_ok.
    set (k := next_chunk_id (data_manager w)).
    destruct (lookup_lt_is_Some_2 (bottom_chunk_ids_ l ++ [k]) (Z.to_nat 0))
      as [x Hx].
    { rewrite length_app. simpl. lia. }
    rewrite (vec_at_lookup _ _ x (Z.le_refl 0) Hx). run_ok.
    rewrite GetData_live.
    2:{ apply list_elem_of_lookup_2 in Hx. apply elem_of_app in Hx as [Hx|Hx].
        - apply live_after_create, Hl, Hx.
        - apply list_elem_of_singleton in Hx. subst x. apply live_new. }
    run_ok.
    rewrite CreateData_fail by (rewrite free_after_create; fold bytes; lia).
    reflexivity.
  - rewrite CreateData_fail by exact Hfit. reflexivity.
Qed.

(** What [Setup] leaves alone: whenever it returns, only the input
    descriptor and the four vectors can differ. *)
Lemma Layer_Setup_frame P l w l' w' :
  Layer_Setup P l w = Ok (l', w') ->
  l' = set_bottom_quad (bottom_quad l') (set_bottom_desc_ (bottom_desc_ l') l).
Proof.
  unfold Layer_Setup. destruct (standalone (input_dim_ l)).
  - unfold for_int. rewrite Layer_Setup_loop_quad.
    destruct (for_upto _ _ _ _) as [[q w1]|e]; [|discriminate].
    rewrite bind_Ok. cbv beta iota. intros H. inversion H; subst l' w'.
    destruct q as [[[ps ids] dps] dids], l. reflexivity.
  - intros H. inversion H; subst. now destruct l'.
Qed.

(** X3. [Setup] neither reads nor writes the identity of the layer, the
    member [has_learnable_params_], the input shape or the input count:
    they come out as they went in. *)
Theorem Layer_Setup_keeps_identity
    (P : Platform) (l : Layer) (w : World) (l' : Layer) (w' : World) :
  Layer_Setup P l w = Ok (l', w') ->
  p_handle_ l' = p_handle_ l /\
  has_learnable_params_ l' = has_learnable_params_ l /\
  getLayerType l' = getLayerType l /\
  getLayerId l' = getLayerId l /\
  layer_name_ l' = layer_name_ l /\
  previous_layer_name_ l' = previous_layer_name_ l /\
  getInputDim l' = getInputDim l /\
  num_inputs_ l' = num_inputs_ l.
Proof.
  intros H. apply Layer_Setup_frame in H. rewrite H.
  destruct (bottom_quad l') as [[[ps ids] dps] dids]. repeat split.
Qed.

(** X4. Naming a layer or giving it an id before [Setup] or after it comes
    to the same: the three setters commute with [Setup]. *)
Theorem Layer_Setup_commutes_with_setters
    (P : Platform) (l : Layer) (w : World) (id : Z) (name prev : string) :
  let f := fun l => setLayerId id (setLayerName name (setPrevLayerName prev l)) in
  Layer_Setup P (f l) w =
    match Layer_Setup P l w with
    | Ok (l', w') => Ok (f l', w')
    | Err e => Err e
    end.
Proof.
  intros f. unfold Layer_Setup.
  change (input_dim_ (f l)) with (input_dim_ l).
  destruct (standalone (input_dim_ l)); [|reflexivity].
  unfold for_int. rewrite !Layer_Setup_loop_quad.
  change (num_inputs_ (set_bottom_desc_ _ (f l))) with (num_inputs_ l).
  change (num_inputs_ (set_bottom_desc_ _ l)) with (num_inputs_ l).
  change (bottom_quad (set_bottom_desc_ _ (f l))) with (bottom_quad l).
  change (bottom_quad (set_bottom_desc_ _ l)) with (bottom_quad l).
  destruct (for_upto _ _ _ _) as [[q w1]|e]; [|reflexivity].
  rewrite !bind_Ok. cbv beta iota.
  now destruct q as [[[ps ids] dps] dids].
Qed.

(** ** Further properties of [ComputeOutputDim] *)

Lemma ComputeOutputDim_zero_stride cl :
  stride_u_ (conv_param_ cl) = 0 \/ stride_v_ (conv_param_ cl) = 0 ->
  ComputeOutputDim cl = Err UndefinedBehaviour.
Proof.
  intros Hz. unfold ComputeOutputDim.
  destruct Hz as [-> | ->]; [now rewrite Int_div_zero|].
  rewrite Int_div_zero. now destruct (Int.div _ _).
Qed.

Lemma ComputeOutputDim_inv cl cl' :
  ComputeOutputDim cl = Ok cl' ->
  extents_defined cl /\ cl' = set_output_dim_ (out_dim cl) cl.
Proof.
  intros H.
  assert (Hdef : extents_defined cl).
  { unfold ComputeOutputDim in H. unfold extents_defined, conv_dividend.
    destruct (Int.div _ (stride_u_ _)) as [qh|] eqn:Eh; [|discriminate].
    destruct (Int.div _ (stride_v_ _)) as [qw|] eqn:Ew; [|discriminate].
    split; eapply Int_div_inv; eassumption. }
  rewrite ComputeOutputDim_ok in H by exact Hdef.
  inversion H. auto.
Qed.

(** The spatial extents [ComputeOutputDim] assigns, without overflow. *)
Lemma ComputeOutputDim_exact cl :
  let i := input_dim_ (base cl) in
  let p := conv_param_ cl in
  stride_u_ p <> 0 -> stride_v_ p <> 0 ->
  extent_fits (h_ i) (pad_h_ p) (kernel_size_h_ p) (stride_u_ p) ->
  extent_fits (w_ i) (pad_w_ p) (kernel_size_w_ p) (stride_v_ p) ->
  ComputeOutputDim cl = Ok (set_output_dim_ (out_dim cl) cl) /\
  h_ (out_dim cl) = (h_ i + 2 * pad_h_ p - kernel_size_h_ p) ÷ stride_u_ p + 1 /\
  w_ (out_dim cl) = (w_ i + 2 * pad_w_ p - kernel_size_w_ p) ÷ stride_v_ p + 1.
Proof.
  intros i p Hu Hv Hfh Hfw.
  split; [apply ComputeOutputDim_ok; split; now apply extent_fits_defined|].
  cbn [out_dim h_ w_]. fold i p.
  now rewrite (conv_extent_exact _ _ _ _ Hfh), (conv_extent_exact _ _ _ _ Hfw).
Qed.

(** X5. A stride of zero makes [ComputeOutputDim] divide by zero, and a
    standalone [Setup] with such a stride never returns: it stops at the
    division if not before. *)
Theorem zero_stride_is_undefined
    (P : Platform) (cl : ConvolutionLayer) (w : World) :
  stride_u_ (conv_param_ cl) = 0 \/ stride_v_ (conv_param_ cl) = 0 ->
  ComputeOutputDim cl = Err UndefinedBehaviour /\
  (standalone (input_dim_ (base cl)) = true ->
   exists e, ConvolutionLayer_Setup P cl w = Err e).
Proof.
  intros Hz. split; [now apply ComputeOutputDim_zero_stride|].
  intros Hst. unfold ConvolutionLayer_Setup.
  destruct (Layer_Setup P (base cl) w) as [[b w0]|e] eqn:HL; [|eauto].
  rewrite bind_Ok. cbv beta iota.
  apply Layer_Setup_frame in HL.
  assert (Hd : input_dim_ b = input_dim_ (base cl)).
  { rewrite HL. now destruct (bottom_quad b) as [[[? ?] ?] ?]. }
  change (input_dim_ (base (set_desc_ _ (set_base b cl)))) with (input_dim_ b).
  rewrite Hd, Hst. unfold ConvolutionLayer_Setup_data.
  rewrite ComputeOutputDim_zero_stride by exact Hz. eauto.
Qed.

(** X6. [ComputeOutputDim] writes [output_dim_] and nothing else, and
    running it again changes nothing more. *)
Theorem ComputeOutputDim_idempotent (cl cl' : ConvolutionLayer) :
  ComputeOutputDim cl = Ok cl' ->
  cl' = set_output_dim_ (output_dim_ cl') cl /\
  ComputeOutputDim cl' = Ok cl'.
Proof.
  intros H. apply ComputeOutputDim_inv in H as (Hdef & ->).
  split; [reflexivity|].
  rewrite ComputeOutputDim_ok
    by (apply (extents_defined_ext cl); [reflexivity | reflexivity | exact Hdef]).
  now destruct cl.
Qed.

(** X7. A convolution with stride 1 whose kernel extent is [2 * pad + 1]
    keeps the spatial extents of its input. *)
Theorem ComputeOutputDim_same_extents (cl : ConvolutionLayer) :
  let i := input_dim_ (base cl) in
  let p := conv_param_ cl in
  stride_u_ p = 1 -> stride_v_ p = 1 ->
  kernel_size_h_ p = 2 * pad_h_ p + 1 ->
  kernel_size_w_ p = 2 * pad_w_ p + 1 ->
  0 < h_ i -> 0 < w_ i -> 0 <= pad_h_ p -> 0 <= pad_w_ p ->
  h_ i + 2 * pad_h_ p <= Int.max_signed ->
  w_ i + 2 * pad_w_ p <= Int.max_signed ->
  exists cl',
    ComputeOutputDim cl = Ok cl' /\
    h_ (output_dim_ cl') = h_ i /\ w_ (output_dim_ cl') = w_ i.
Proof.
  intros i p Hu Hv Hkh Hkw Hh Hw Hph Hpw Hmh Hmw.
  assert (Hq : forall a, (a - 1) ÷ 1 = a - 1) by (intros; apply Z.quot_1_r).
  destruct (ComputeOutputDim_exact cl) as (H & Hoh & How);
    fold i p; rewrite ?Hu, ?Hv, ?Hkh, ?Hkw.
  - lia.
  - lia.
  - unfold extent_fits, Int.fits, Int.min_signed, Int.max_signed in *.
    replace (h_ i + 2 * pad_h_ p - (2 * pad_h_ p + 1)) with (h_ i - 1) by lia.
    rewrite Hq. lia.
  - unfold extent_fits, Int.fits, Int.min_signed, Int.max_signed in *.
    replace (w_ i + 2 * pad_w_ p - (2 * pad_w_ p + 1)) with (w_ i - 1) by lia.
    rewrite Hq. lia.
  - eexists. split; [exact H|]. cbn [output_dim_ set_output_dim_].
    fold i p in Hoh, How. rewrite Hu, Hkh in Hoh. rewrite Hv, Hkw in How.
    replace (h_ i + 2 * pad_h_ p - (2 * pad_h_ p + 1)) with (h_ i - 1) in Hoh by lia.
    replace (w_ i + 2 * pad_w_ p - (2 * pad_w_ p + 1)) with (w_ i - 1) in How by lia.
    rewrite Hq in Hoh, How. lia.
Qed.


(** ** [ConvolutionLayer::Setup] in composed mode *)

Lemma ConvolutionLayer_Setup_composed_eq P cl w :
  standalone (input_dim_ (base cl)) = false ->
  ConvolutionLayer_Setup P cl w =
  ConvolutionLayer_Setup_algo P
    (set_desc_ (ConvolutionDesc_Set (conv_param_ cl) (c_ (input_dim_ (base cl))))
               cl) w.
Proof.
  intros Hst. unfold ConvolutionLayer_Setup, Layer_Setup. rewrite Hst.
  rewrite bind_Ok. cbv beta iota.
  replace (set_base (base cl) cl) with cl by now destruct cl.
  change (input_dim_ (base (set_desc_ _ cl))) with (input_dim_ (base cl)).
  rewrite Hst. now rewrite bind_Ok.
Qed.

(** X9. In composed mode [ConvolutionLayer::Setup] creates no buffer and
    leaves the vectors, the weights and the two tensor descriptors as they
    were; it builds the convolution descriptor and makes three calls: the
    algorithm query and the workspace query, both with the tensor
    descriptors as they stand (never set, on a layer just constructed), and
    [cudaMalloc]. *)
Theorem ConvolutionLayer_Setup_composed
    (P : Platform) (cl : ConvolutionLayer) (w : World) (algo size : Z) :
  let cl1 := set_desc_ (ConvolutionDesc_Set (conv_param_ cl)
                                            (c_ (input_dim_ (base cl)))) cl in
  standalone (input_dim_ (base cl)) = false ->
  cudnnGetConvolutionForwardAlgorithm P (fwd_algo_query cl1) = Some algo ->
  cudnnGetConvolutionForwardWorkspaceSize P (fwd_workspace_query cl1 algo)
    = Some size ->
  0 <= size <= dev_free (device w) ->
  exists cl' w',
    ConvolutionLayer_Setup P cl w = Ok (cl', w') /\
    data_manager w' = data_manager w /\
    calls w' = calls w ++ [GetForwardAlgorithmCall (fwd_algo_query cl1);
                           GetForwardWorkspaceSizeCall (fwd_workspace_query cl1 algo);
                           CudaMallocCall size (dev_next (device w))] /\
    aq_bottom_desc (fwd_algo_query cl1) = bottom_desc_ (base cl) /\
    aq_top_desc (fwd_algo_query cl1) = top_desc_ cl /\
    base cl' = base cl /\
    top_quad cl' = top_quad cl /\
    top_desc_ cl' = top_desc_ cl /\
    output_dim_ cl' = output_dim_ cl /\
    weights_ cl' = weights_ cl /\
    weights_diff_ cl' = weights_diff_ cl /\
    desc_ cl' = ConvolutionDesc_Set (conv_param_ cl) (c_ (input_dim_ (base cl))).
Proof.
  intros cl1 Hst Ha Hs Hcap.
  eexists _, _. split.
  { rewrite ConvolutionLayer_Setup_composed_eq by exact Hst. fold cl1.
    apply (ConvolutionLayer_Setup_algo_eq P cl1 w algo size); assumption. }
  cbn [data_manager calls]. repeat split.
Qed.

(** X10. A convolution layer set up in composed mode cannot run: nothing
    in the class assigns [weights_] outside the standalone branch, and
    [ForwardPropagation] starts by reading it. *)
Theorem ForwardPropagation_after_composed_Setup
    (P : Platform) (cl : ConvolutionLayer) (w : World)
    (cl' : ConvolutionLayer) (w' : World) :
  standalone (input_dim_ (base cl)) = false ->
  weights_ cl = None ->
  ConvolutionLayer_Setup P cl w = Ok (cl', w') ->
  ConvolutionLayer_ForwardPropagation P cl' w' = Err UndefinedBehaviour.
Proof.
  intros Hst Hw HS. rewrite ConvolutionLayer_Setup_composed_eq in HS by exact Hst.
  apply ConvolutionLayer_Setup_algo_inv in HS
    as (algo & size & _ & _ & _ & -> & _).
  unfold ConvolutionLayer_ForwardPropagation.
  change (weights_ (set_fwd _ _ _ (set_desc_ _ cl))) with (weights_ cl).
  now rewrite Hw.
Qed.

(** ** From [Setup] to [ForwardPropagation] *)




(** ** Running [ForwardPropagation] again *)

Lemma bind_inv {A B} (r : Result A) (k : A -> Result B) b :
  mbind k r = Ok b -> exists a, r = Ok a /\ k a = Ok b.
Proof. destruct r as [a|e]; [eauto|discriminate]. Qed.

Lemma from_option_inv {A} e (o : option A) a :
  from_option e o = Ok a -> o = Some a.
Proof. destruct o; intros H; inversion H; reflexivity. Qed.

(** A forward pass up to the release of the scratch memory. *)
Lemma ConvolutionLayer_ForwardPropagation_upto_free P cl w wp ws :
  let n := Z.to_nat (num_inputs_ (base cl)) in
  weights_ cl = Some wp ->
  is_Some (chunks (data_manager w) !! wp) ->
  workspace_ cl = Some ws ->
  (forall j, (j < n)%nat -> conv_call_ok P cl (data_manager w) j = true) ->
  ConvolutionLayer_ForwardPropagation P cl w =
    w2 ← cudaFree ws
           (mkWorld (device w) (data_manager w)
              (calls w ++ [FillerCall wp] ++ fill_calls cl
                 ++ [ProfilerStartCall]
                 ++ (ConvolutionForwardCall <$>
                       conv_calls cl (data_manager w) 0 n)
                 ++ [ProfilerStopCall]));
    Ok (cl, w2).
Proof.
  intros n Hwp [wd Hwd] Hws Hok.
  unfold ConvolutionLayer_ForwardPropagation.
  rewrite Hwp. cbn [from_option]. rewrite bind_Ok.
  unfold Filler, deref. rewrite Hwd. cbn [from_option]. rewrite !bind_Ok.
  unfold for_int. fold n.
  rewrite (fill_loop cl n 0).
  2:{ intros j Hj.
      destruct (conv_call_ok_Some P cl (data_manager w) j) as (c & Hc & _);
        [apply Hok; lia|].
      apply conv_call_fields in Hc
        as (_ & _ & _ & _ & _ & (b & bd & Hb & Hbd & _) & _).
      exists b. split; [exact Hb|]. cbn [log data_manager]. eauto. }
  rewrite bind_Ok.
  rewrite (forward_loop P cl n 0)
    by (intros j Hj; cbn [log data_manager]; apply Hok; lia).
  rewrite bind_Ok. rewrite Hws. cbn [from_option]. rewrite bind_Ok.
  unfold log. cbn [device data_manager calls drop].
  unfold fill_calls. fold n.
  rewrite <- !(assoc_L (++)). reflexivity.
Qed.

(** X12. [ForwardPropagation] runs once.  On a ready layer whose scratch
    memory has a positive size, the pass frees that memory and leaves
    [workspace_] pointing at it; a second pass on the same layer does not
    complete: its [cudaFree] finds the address no longer allocated. *)
Theorem ConvolutionLayer_ForwardPropagation_twice
    (P : Platform) (cl : ConvolutionLayer) (w : World) (ws bytes : Z) :
  ready P cl w = true ->
  workspace_ cl = Some ws ->
  dev_live (device w) !! ws = Some bytes ->
  0 < bytes ->
  exists w',
    ConvolutionLayer_ForwardPropagation P cl w = Ok (cl, w') /\
    dev_live (device w') !! ws = None /\
    ConvolutionLayer_ForwardPropagation P cl w' = Err CudaFailure.
Proof.
  intros Hr Hws Hlive _.
  destruct (ready_inv P cl w Hr)
    as (wp & ws' & bytes' & Hwp & Hws' & Hlw & _ & Hok).
  clear ws' bytes' Hws'.
  eexists. split; [|split].
  - apply (ConvolutionLayer_ForwardPropagation_eq P cl w wp ws bytes);
      assumption.
  - cbn [device dev_live]. apply lookup_delete_eq.
  - rewrite (ConvolutionLayer_ForwardPropagation_upto_free P cl _ wp ws);
      try assumption.
    unfold cudaFree, device_free. cbn [device dev_live].
    now rewrite lookup_delete_eq.
Qed.

Lemma for_upto_preserves {S : Type} (R : S -> S -> Prop)
    (body : Z -> S -> Result S) :
  (forall s, R s s) ->
  (forall a b c, R a b -> R b c -> R a c) ->
  (forall i s s', body i s = Ok s' -> R s s') ->
  forall n i s s', for_upto n i body s = Ok s' -> R s s'.
Proof.
  intros Hrefl Htrans Hbody. induction n as [|n IH]; intros i s s' H.
  - inversion H. apply Hrefl.
  - cbn [for_upto] in H. apply bind_inv in H as (s1 & H1 & H2).
    eapply Htrans; [eapply Hbody, H1 | eapply IH, H2].
Qed.

Lemma logged_refl w : logged w w.
Proof. repeat split. exists []. now rewrite app_nil_r. Qed.

Lemma logged_trans a b c : logged a b -> logged b c -> logged a c.
Proof.
  intros (H1 & H2 & es & H3) (H4 & H5 & es' & H6). repeat split; try congruence.
  exists (es ++ es'). rewrite H6, H3. now rewrite (assoc_L (++)).
Qed.

Lemma logged_log e w : logged w (log e w).
Proof. repeat split. eauto. Qed.

Lemma Filler_logged p w w' : Filler p w = Ok w' -> logged w w'.
Proof.
  unfold Filler. intros H. apply bind_inv in H as (d & _ & H).
  inversion H. apply logged_log.
Qed.

Lemma fill_body_logged cl i w w' : fill_body cl i w = Ok w' -> logged w w'.
Proof.
  unfold fill_body. intros H. apply bind_inv in H as (b & _ & H).
  eapply Filler_logged, H.
Qed.

Lemma forward_body_logged P cl i w w' :
  forward_body P cl i w = Ok w' -> logged w w'.
Proof.
  unfold forward_body. intros H.
  repeat (apply bind_inv in H as (? & _ & H)).
  destruct (cudnnConvolutionForward P _); [|discriminate].
  inversion H. apply logged_log.
Qed.

(** X13. What a forward pass allocates and releases.  Whenever it
    returns, the layer object is as before (so is its stale [workspace_]),
    the data manager holds the same buffers under the same handles, with
    the same sizes and addresses, the log has only grown, and the table of
    device allocations differs by one entry: the scratch memory, released.
    (What the buffers hold is written by the fill routine and by the
    library and is not described here.) *)
Theorem ConvolutionLayer_ForwardPropagation_frame
    (P : Platform) (cl : ConvolutionLayer) (w : World)
    (cl' : ConvolutionLayer) (w' : World) :
  ConvolutionLayer_ForwardPropagation P cl w = Ok (cl', w') ->
  cl' = cl /\
  data_manager w' = data_manager w /\
  (exists es, calls w' = calls w ++ es) /\
  exists ws bytes,
    workspace_ cl = Some ws /\
    dev_live (device w) !! ws = Some bytes /\
    device w' = mkDevice (dev_free (device w) + bytes)
                         (delete ws (dev_live (device w)))
                         (dev_next (device w)).
Proof.
  unfold ConvolutionLayer_ForwardPropagation. intros H.
  apply bind_inv in H as (wp & _ & H).
  apply bind_inv in H as (w1 & H1 & H). apply Filler_logged in H1.
  apply bind_inv in H as (w2 & H2 & H).
  apply (for_upto_preserves logged _ logged_refl logged_trans
           (fill_body_logged cl)) in H2.
  apply bind_inv in H as (w3 & H3 & H).
  apply (for_upto_preserves logged _ logged_refl logged_trans
           (forward_body_logged P cl)) in H3.
  apply bind_inv in H as (ws & Hws & H). apply from_option_inv in Hws.
  apply bind_inv in H as (w4 & H4 & H). inversion H; subst cl' w'. clear H.
  remember (log ProfilerStopCall w3) as w5 eqn:Hw5.
  assert (H5 : logged w3 w5) by (subst w5; apply logged_log).
  remember (log ProfilerStartCall w2) as w2' eqn:Hw2'.
  assert (H2' : logged w2 w2') by (subst w2'; apply logged_log).
  clear Hw5 Hw2'.
  pose proof (logged_trans _ _ _ H1
               (logged_trans _ _ _ H2
                  (logged_trans _ _ _ H2' (logged_trans _ _ _ H3 H5))))
    as (Hd & Hm & es & Hc).
  unfold cudaFree, device_free in H4. rewrite Hd, Hm, Hc in H4.
  destruct (dev_live (device w) !! ws) as [bytes|] eqn:Hl; [|discriminate].
  inversion H4; subst w4. cbn [data_manager calls device].
  split; [reflexivity|]. split; [reflexivity|]. split.
  - exists (es ++ [CudaFreeCall ws]). now rewrite (assoc_L (++)).
  - exists ws, bytes. auto.
Qed.

(** ** More on the standalone [ConvolutionLayer::Setup] *)

(** X14. A standalone [ConvolutionLayer::Setup] sets the three
    descriptors, stores the extents of [ComputeOutputDim] in [output_dim_],
    and creates for each of [num_outputs_] outputs one output buffer and
    one gradient buffer of [n_ * c_ * h_ * w_] elements of that shape,
    appending their handles to [top_chunk_ids_] and [top_diff_chunk_ids_]. *)
Theorem ConvolutionLayer_Setup_outputs
    (P : Platform) (cl : ConvolutionLayer) (w : World) (algo ws : Z) :
  let b := base cl in
  let n := Z.to_nat (num_inputs_ b) in
  let m := Z.to_nat (num_outputs_ cl) in
  let bsize := dim_size (input_dim_ b) in
  let tsize := dim_size (out_dim cl) in
  let wsize := weights_size_of cl in
  let kt := next_chunk_id (data_manager w) + 2 * Z.of_nat n in
  standalone (input_dim_ b) = true ->
  extents_defined cl ->
  0 <= bsize * sizeof_T P -> 0 <= tsize * sizeof_T P ->
  0 <= wsize * sizeof_T P -> 0 <= ws ->
  2 * Z.of_nat n * (bsize * sizeof_T P) + 2 * Z.of_nat m * (tsize * sizeof_T P)
    + 2 * (wsize * sizeof_T P) + ws <= dev_free (device w) ->
  handles_live w (bottom_chunk_ids_ b) ->
  handles_live w (bottom_diff_chunk_ids_ b) ->
  handles_live w (top_chunk_ids_ cl) ->
  handles_live w (top_diff_chunk_ids_ cl) ->
  cudnnGetConvolutionForwardAlgorithm P (algo_query cl) = Some algo ->
  cudnnGetConvolutionForwardWorkspaceSize P (workspace_query cl algo) = Some ws ->
  exists cl' w',
    ConvolutionLayer_Setup P cl w = Ok (cl', w') /\
    bottom_desc_ (base cl') = Some (input_dim_ b) /\
    desc_ cl' = Some (conv_param_ cl, c_ (input_dim_ b)) /\
    output_dim_ cl' = out_dim cl /\
    top_desc_ cl' = Some (out_dim cl) /\
    top_chunk_ids_ cl' = top_chunk_ids_ cl ++ evens kt m /\
    top_diff_chunk_ids_ cl' = top_diff_chunk_ids_ cl ++ evens (kt + 1) m /\
    length (tops_ cl') = (length (tops_ cl) + m)%nat /\
    length (top_diffs_ cl') = (length (top_diffs_ cl) + m)%nat /\
    (forall id, id ∈ evens kt m ++ evens (kt + 1) m ->
       data_size <$> chunks (data_manager w') !! id = Some tsize) /\
    fwd_algo_ cl' = Some algo /\
    fwd_workspace_size_ cl' = Some ws.
Proof.
  intros b n m bsize tsize wsize kt Hst Hdef Hbs Hts Hws Hws0 Hcap
         Hl1 Hl2 Hl3 Hl4 Ha Hq.
  subst b.
  eexists _, _. split.
  { apply (ConvolutionLayer_Setup_standalone_eq P cl w algo ws);
      fold n m bsize tsize wsize; assumption. }
  fold n m bsize tsize wsize.
  set (k := next_chunk_id (data_manager w)) in *.
  set (w1 := after_creates P bsize (2 * n) w).
  set (w2 := after_creates P tsize (2 * m) w1).
  assert (Hk1 : next_chunk_id (data_manager w1) = kt).
  { unfold w1. rewrite after_creates_next. fold k. unfold kt. lia. }
  assert (Hk2 : next_chunk_id (data_manager w2) = kt + 2 * Z.of_nat m).
  { unfold w2. rewrite after_creates_next, Hk1. lia. }
  cbn [conv_after_Setup base_after_Setup set_fwd set_weights set_top_quad
       set_tops set_top_desc_ set_output_dim_ set_desc_ set_base
       set_bottom_quad set_bottom_desc_ base bottom_desc_ desc_ output_dim_
       top_desc_ top_chunk_ids_ top_diff_chunk_ids_ tops_ top_diffs_
       fwd_algo_ fwd_workspace_size_ data_manager].
  fold n m k kt.
  split. { unfold DataTensor_Set. now destruct (input_dim_ (base cl)). }
  split; [reflexivity|]. split; [reflexivity|].
  split. { unfold DataTensor_Set. now destruct (out_dim cl). }
  split; [reflexivity|]. split; [reflexivity|].
  split. { rewrite length_app, length_take, length_app, evens_length. lia. }
  split. { rewrite length_app, length_take, length_app, evens_length. lia. }
  split; [|split; reflexivity].
  intros id Hid.
  assert (Hr : kt <= id < kt + 2 * Z.of_nat m).
  { apply elem_of_app in Hid as [Hid|Hid];
      apply evens_elem in Hid as (j & Hj & ->); lia. }
  rewrite after_creates_old by (fold w1 w2; rewrite Hk2; lia).
  apply after_creates_new. fold w1. rewrite Hk1. lia.
Qed.

(** X15. The buffers of a layer do not alias.  After a standalone [Setup]
    of a layer that held no buffer, the handles of its inputs, input
    gradients, outputs, output gradients, weights and weight gradients are
    pairwise distinct, none of them was issued before the call, and all
    are live. *)
Theorem ConvolutionLayer_Setup_handles_distinct
    (P : Platform) (cl : ConvolutionLayer) (w : World) (algo ws : Z) :
  let b := base cl in
  let n := Z.to_nat (num_inputs_ b) in
  let m := Z.to_nat (num_outputs_ cl) in
  let bsize := dim_size (input_dim_ b) in
  let tsize := dim_size (out_dim cl) in
  let wsize := weights_size_of cl in
  standalone (input_dim_ b) = true ->
  extents_defined cl ->
  0 <= bsize * sizeof_T P -> 0 <= tsize * sizeof_T P ->
  0 <= wsize * sizeof_T P -> 0 <= ws ->
  2 * Z.of_nat n * (bsize * sizeof_T P) + 2 * Z.of_nat m * (tsize * sizeof_T P)
    + 2 * (wsize * sizeof_T P) + ws <= dev_free (device w) ->
  bottom_chunk_ids_ b = [] -> bottom_diff_chunk_ids_ b = [] ->
  top_chunk_ids_ cl = [] -> top_diff_chunk_ids_ cl = [] ->
  cudnnGetConvolutionForwardAlgorithm P (algo_query cl) = Some algo ->
  cudnnGetConvolutionForwardWorkspaceSize P (workspace_query cl algo) = Some ws ->
  exists cl' w' wid wdid,
    ConvolutionLayer_Setup P cl w = Ok (cl', w') /\
    weights_chunk_id_ cl' = Some wid /\
    weights_diff_chunk_id_ cl' = Some wdid /\
    let handles := bottom_chunk_ids_ (base cl') ++ bottom_diff_chunk_ids_ (base cl')
                   ++ top_chunk_ids_ cl' ++ top_diff_chunk_ids_ cl'
                   ++ [wid; wdid] in
    NoDup handles /\
    length handles = (2 * n + 2 * m + 2)%nat /\
    forall id, id ∈ handles ->
      next_chunk_id (data_manager w) <= id /\ live w' id.
Proof.
  intros b n m bsize tsize wsize Hst Hdef Hbs Hts Hws Hws0 Hcap
         Hb2 Hb4 Ht2 Ht4 Ha Hq.
  subst b.
  set (k := next_chunk_id (data_manager w)).
  set (kt := k + 2 * Z.of_nat n).
  set (kw := kt + 2 * Z.of_nat m).
  exists (conv_after_Setup cl k algo ws
            (dev_next (device (after_creates P wsize 2
               (after_creates P tsize (2 * m)
                  (after_creates P bsize (2 * n) w)))))).
  eexists. exists kw, (kw + 1). split.
  { apply (ConvolutionLayer_Setup_standalone_eq P cl w algo ws);
      fold n m bsize tsize wsize; try assumption.
    - rewrite Hb2. intros ? Hin. inversion Hin.
    - rewrite Hb4. intros ? Hin. inversion Hin.
    - rewrite Ht2. intros ? Hin. inversion Hin.
    - rewrite Ht4. intros ? Hin. inversion Hin. }
  split; [reflexivity|]. split; [reflexivity|].
  cbn [conv_after_Setup base_after_Setup set_fwd set_weights set_top_quad
       set_tops set_top_desc_ set_output_dim_ set_desc_ set_base
       set_bottom_quad set_bottom_desc_ base bottom_chunk_ids_
       bottom_diff_chunk_ids_ top_chunk_ids_ top_diff_chunk_ids_ data_manager].
  rewrite Hb2, Hb4, Ht2, Ht4. cbn [app]. fold n m k kt.
  set (w1 := after_creates P bsize (2 * n) w).
  set (w2 := after_creates P tsize (2 * m) w1).
  set (w3 := after_creates P wsize 2 w2).
  assert (Hk3 : next_chunk_id (data_manager w3) = kw + 2).
  { unfold w3, w2, w1. rewrite !after_creates_next. fold k. unfold kw, kt. lia. }
  assert (Hrange : forall id,
            id ∈ evens k n ++ evens (k + 1) n ++ evens kt m
                 ++ evens (kt + 1) m ++ [kw; kw + 1] ->
            k <= id < kw + 2).
  { intros id Hid. unfold kw, kt in *.
    repeat (apply elem_of_app in Hid as [Hid|Hid];
            [apply evens_elem in Hid as (j & Hj & ->); lia|]).
    apply elem_of_cons in Hid as [->|Hid]; [lia|].
    apply list_elem_of_singleton in Hid. lia. }
  split; [|split].
  - repeat (apply NoDup_app; split; [apply evens_NoDup|]; split;
            [intros id Hid Hid'; apply evens_elem in Hid as (j & Hj & ->);
             unfold kw, kt in *;
             repeat (apply elem_of_app in Hid' as [Hid'|Hid'];
                     [apply evens_elem in Hid' as (j' & Hj' & Hid'); lia|]);
             apply elem_of_cons in Hid' as [Hid'|Hid']; [lia|];
             apply list_elem_of_singleton in Hid'; lia|]).
    apply NoDup_cons. split; [|apply NoDup_singleton].
    rewrite list_elem_of_singleton. lia.
  - rewrite !length_app, !evens_length. cbn [length]. lia.
  - intros id Hid. apply Hrange in Hid. split; [lia|].
    assert (live w3 id) as Hlive.
    { replace w3 with (after_creates P wsize 2 w2) by reflexivity.
      destruct (Z_lt_le_dec id kw) as [Hlt|Hge].
      - apply after_creates_live.
        destruct (Z_lt_le_dec id kt) as [Hlt'|Hge'].
        + apply after_creates_live. apply after_creates_new_live. fold k.
          unfold kt in Hlt'. lia.
        + apply after_creates_new_live. unfold w1.
          rewrite after_creates_next. fold k kt. unfold kw in Hlt. lia.
      - apply after_creates_new_live. unfold w2, w1.
        rewrite !after_creates_next. fold k. unfold kw, kt in *. lia. }
    exact Hlive.
Qed.

(** ** [Setup] only adds *)



Lemma extends_log e w : extends w (log e w).
Proof.
  unfold extends. cbn [log device data_manager calls].
  split; [lia|]. split; [reflexivity|]. split; [lia|]. split; [reflexivity|].
  eauto.
Qed.


Lemma cudaMalloc_extends bytes w ptr w' :
  cudaMalloc bytes w = Ok (ptr, w') -> extends w w'.
Proof.
  unfold cudaMalloc, device_malloc. intros H.
  destruct (_ && _); [|discriminate]. inversion H; subst ptr w'. clear H.
  unfold extends.
  cbn [device data_manager calls dev_next dev_live device_after_malloc].
  split; [lia|]. split; [|split; [lia|split; [reflexivity|eauto]]].
  intros p Hp. apply lookup_insert_ne. lia.
Qed.










(** ** The concrete run, continued *)

Ltac by_computation := vm_compute; first [reflexivity | discriminate | intros Hcmp; discriminate Hcmp].

Lemma Layer_Setup_any_zero_noop_witness :
  Layer_Setup example_platform example_partial example_world
    = Ok (example_partial, example_world).
Proof.
  apply (Layer_Setup_any_zero_noop example_platform example_partial
           example_world).
  right. right. left. reflexivity.
Defined.

Lemma Layer_Setup_out_of_memory_witness :
  Layer_Setup example_platform (base example_layer) example_small_world
    = Err OutOfDeviceMemory.
Proof.
  apply (Layer_Setup_out_of_memory example_platform (base example_layer)
           example_small_world);
    [reflexivity | by_computation | no_handles | right; by_computation].
Defined.

Lemma Layer_Setup_keeps_identity_witness :
  exists l' w',
    Layer_Setup example_platform (base example_layer) example_world
      = Ok (l', w') /\
    getInputDim l' = mkDataDim 2 3 8 8 /\ num_inputs_ l' = 1.
Proof.
  destruct (Layer_Setup example_platform (base example_layer) example_world)
    as [[l' w']|e] eqn:H; [|vm_compute in H; discriminate H].
  exists l', w'. split; [reflexivity|].
  destruct (Layer_Setup_keeps_identity example_platform (base example_layer)
              example_world l' w' H) as (_ & _ & _ & _ & _ & _ & Hd & Hn).
  split; [exact Hd | exact Hn].
Defined.

Lemma zero_stride_is_undefined_witness :
  ComputeOutputDim example_zero_stride = Err UndefinedBehaviour /\
  exists e, ConvolutionLayer_Setup example_platform example_zero_stride
              example_world = Err e.
Proof.
  destruct (zero_stride_is_undefined example_platform example_zero_stride
              example_world) as [H1 H2]; [left; reflexivity|].
  split; [exact H1 | apply H2; reflexivity].
Defined.

Lemma ComputeOutputDim_idempotent_witness :
  exists cl',
    ComputeOutputDim example_layer = Ok cl' /\ ComputeOutputDim cl' = Ok cl'.
Proof.
  exists (set_output_dim_ (mkDataDim 2 4 8 8) example_layer).
  assert (H : ComputeOutputDim example_layer
              = Ok (set_output_dim_ (mkDataDim 2 4 8 8) example_layer))
    by (vm_compute; reflexivity).
  split; [exact H|].
  exact (proj2 (ComputeOutputDim_idempotent example_layer _ H)).
Defined.

Lemma ComputeOutputDim_same_extents_witness :
  exists cl',
    ComputeOutputDim example_layer = Ok cl' /\
    h_ (output_dim_ cl') = 8 /\ w_ (output_dim_ cl') = 8.
Proof.
  apply (ComputeOutputDim_same_extents example_layer); by_computation.
Defined.


Lemma ConvolutionLayer_Setup_composed_witness :
  exists cl' w',
    ConvolutionLayer_Setup example_platform example_fresh example_world
      = Ok (cl', w') /\
    data_manager w' = data_manager example_world /\
    weights_ cl' = None.
Proof.
  destruct (ConvolutionLayer_Setup_composed example_platform example_fresh
              example_world 1 0)
    as (cl' & w' & H & Hm & _ & _ & _ & _ & _ & _ & _ & Hw & _);
    [reflexivity | reflexivity | reflexivity | split; by_computation |].
  exists cl', w'. split; [exact H|]. split; [exact Hm | exact Hw].
Defined.

Lemma ForwardPropagation_after_composed_Setup_witness :
  exists cl' w',
    ConvolutionLayer_Setup example_platform example_fresh example_world
      = Ok (cl', w') /\
    ConvolutionLayer_ForwardPropagation example_platform cl' w'
      = Err UndefinedBehaviour.
Proof.
  destruct (ConvolutionLayer_Setup example_platform example_fresh example_world)
    as [[cl' w']|e] eqn:H; [|vm_compute in H; discriminate H].
  exists cl', w'. split; [reflexivity|].
  apply (ForwardPropagation_after_composed_Setup example_platform
           example_fresh example_world cl' w');
    [reflexivity | reflexivity | exact H].
Defined.


Lemma ConvolutionLayer_ForwardPropagation_twice_witness :
  exists w',
    ConvolutionLayer_ForwardPropagation example_platform_scratch
      (fst example_ready_scratch) (snd example_ready_scratch)
      = Ok (fst example_ready_scratch, w') /\
    dev_live (device w') !! 7 = None /\
    ConvolutionLayer_ForwardPropagation example_platform_scratch
      (fst example_ready_scratch) w' = Err CudaFailure.
Proof.
  apply (ConvolutionLayer_ForwardPropagation_twice example_platform_scratch
           (fst example_ready_scratch) (snd example_ready_scratch) 7 4096);
    [vm_compute; reflexivity | vm_compute; reflexivity
    | vm_compute; reflexivity | lia].
Defined.

Lemma ConvolutionLayer_ForwardPropagation_frame_witness :
  exists cl' w',
    ConvolutionLayer_ForwardPropagation example_platform
      (fst example_ready) (snd example_ready) = Ok (cl', w') /\
    cl' = fst example_ready /\
    data_manager w' = data_manager (snd example_ready).
Proof.
  destruct (ConvolutionLayer_ForwardPropagation example_platform
              (fst example_ready) (snd example_ready))
    as [[cl' w']|e] eqn:H; [|vm_compute in H; discriminate H].
  exists cl', w'. split; [reflexivity|].
  destruct (ConvolutionLayer_ForwardPropagation_frame example_platform
              (fst example_ready) (snd example_ready) cl' w' H)
    as (Hc & Hm & _).
  split; [exact Hc | exact Hm].
Defined.

Lemma ConvolutionLayer_Setup_outputs_witness :
  exists cl' w',
    ConvolutionLayer_Setup example_platform example_layer example_world
      = Ok (cl', w') /\
    output_dim_ cl' = mkDataDim 2 4 8 8 /\
    top_chunk_ids_ cl' = [2] /\ top_diff_chunk_ids_ cl' = [3].
Proof.
  destruct (ConvolutionLayer_Setup_outputs example_platform example_layer
              example_world 1 0)
    as (cl' & w' & H & _ & _ & Ho & _ & Hi & Hd & _);
    [reflexivity | defined_by_computation | by_computation
    | by_computation | by_computation | lia | by_computation
    | no_handles | no_handles | no_handles | no_handles
    | reflexivity | reflexivity |].
  exists cl', w'. split; [exact H|]. split; [exact Ho|].
  split; [exact Hi | exact Hd].
Defined.

Lemma ConvolutionLayer_Setup_handles_distinct_witness :
  exists cl' w' wid wdid,
    ConvolutionLayer_Setup example_platform example_layer example_world
      = Ok (cl', w') /\
    weights_chunk_id_ cl' = Some wid /\
    weights_diff_chunk_id_ cl' = Some wdid /\
    NoDup (bottom_chunk_ids_ (base cl') ++ bottom_diff_chunk_ids_ (base cl')
           ++ top_chunk_ids_ cl' ++ top_diff_chunk_ids_ cl' ++ [wid; wdid]).
Proof.
  destruct (ConvolutionLayer_Setup_handles_distinct example_platform
              example_layer example_world 1 0)
    as (cl' & w' & wid & wdid & H & Hw & Hd & Hnd & _);
    [reflexivity | defined_by_computation | by_computation
    | by_computation | by_computation | lia | by_computation
    | reflexivity | reflexivity | reflexivity | reflexivity
    | reflexivity | reflexivity |].
  exists cl', w', wid, wdid.
  split; [exact H|]. split; [exact Hw|]. split; [exact Hd | exact Hnd].
Defined.



(** ** Sizes beyond the range of [int] *)

(** An input of [65536 * 65536] elements: the two buffers [Setup] creates
    have 0 elements. *)
Lemma Layer_Setup_size_wraps :
  0 < n_ (input_dim_ example_wide) /\ 0 < c_ (input_dim_ example_wide) /\
  0 < h_ (input_dim_ example_wide) /\ 0 < w_ (input_dim_ example_wide) /\
  n_ (input_dim_ example_wide) * c_ (input_dim_ example_wide)
    * h_ (input_dim_ example_wide) * w_ (input_dim_ example_wide)
    = 4294967296 /\
  Layer_Setup example_platform example_wide example_world
    = Ok example_wide_setup /\
  calls (snd example_wide_setup) = [CreateDataCall 0 0; CreateDataCall 0 1] /\
  data_size <$> chunks (data_manager (snd example_wide_setup)) !! 0 = Some 0.
Proof.
  split; [reflexivity|]. split; [reflexivity|]. split; [reflexivity|].
  split; [reflexivity|]. split; [reflexivity|].
  split; [vm_compute; reflexivity|]. split; vm_compute; reflexivity.
Qed.

(** A [1x1] convolution from 65536 to 65536 channels: the weight buffer
    and its gradient have 0 elements. *)
Lemma ConvolutionLayer_Setup_weights_size_wraps :
  standalone (input_dim_ (base example_wide_conv)) = true /\
  output_num_ (conv_param_ example_wide_conv)
    * c_ (input_dim_ (base example_wide_conv))
    * kernel_size_h_ (conv_param_ example_wide_conv)
    * kernel_size_w_ (conv_param_ example_wide_conv) = 4294967296 /\
  ConvolutionLayer_Setup example_platform example_wide_conv example_large_world
    = Ok example_wide_conv_setup /\
  weights_chunk_id_ (fst example_wide_conv_setup) = Some 4 /\
  weights_diff_chunk_id_ (fst example_wide_conv_setup) = Some 5 /\
  data_size <$> chunks (data_manager (snd example_wide_conv_setup)) !! 4
    = Some 0 /\
  data_size <$> chunks (data_manager (snd example_wide_conv_setup)) !! 5
    = Some 0.
Proof.
  split; [reflexivity|]. split; [reflexivity|].
  split; [vm_compute; reflexivity|]. split; [vm_compute; reflexivity|].
  split; [vm_compute; reflexivity|]. split; vm_compute; reflexivity.
Qed.
